(** * Compliance Gap Analyzer: the keyword-coverage scorer and its upload handler

    A shallow embedding of [src/main.py]: [analyze_text] (the scorer) and
    [upload_and_analyze] (the handler of POST /api/analyze).

    Numbers are the interpreter's: Python's [float] is IEEE 754 binary64, here
    [spec_float] with the Standard Library's executable operations at
    precision 53, so that every rounding of the source is the model's too.
    A text is a [string], the sequence of its UTF-8 bytes; the thirty-three
    markers of the scorer are ASCII, and [str.lower] is followed as far as a
    search for ASCII markers can tell. *)

From Stdlib Require Import ZArith List Bool Lia Ascii String.
From Stdlib Require Import SpecFloat FMapPositive.
Import ListNotations.

Local Open Scope string_scope.
Local Open Scope Z_scope.

(** ** Python's float arithmetic *)

Module PyFloat.

Definition prec : Z := 53.
Definition emax : Z := 1024.

Definition float := spec_float.

(** An integer as the operand of a float operation ([float(n)] for the
    integers met here; the quotient below is correctly rounded for any
    integers). *)
Definition of_int (n : Z) : float :=
  match n with
  | Z0 => S754_zero false
  | Zpos p => S754_finite false p 0
  | Zneg p => S754_finite true p 0
  end.

Definition add : float -> float -> float := SFadd prec emax.
Definition sub : float -> float -> float := SFsub prec emax.
Definition abs : float -> float := SFabs.
Definition div : float -> float -> float := SFdiv prec emax.
Definition ltb : float -> float -> bool := SFltb.
Definition leb : float -> float -> bool := SFleb.

(** [a / b] on two ints: the correctly rounded quotient. *)
Definition truediv (a b : Z) : float := div (of_int a) (of_int b).

(** A decimal literal with two digits after the point, [n/100] for short:
    the double nearest to it. *)
Definition dec2 (n : Z) : float := truediv n 100.

Definition zero : float := S754_zero false.
Definition one : float := dec2 100.
Definition half : float := dec2 50.
Definition three_quarters : float := dec2 75.

(** Nearest integer to [a / 2^k], ties to even. *)
Definition rne_shift (a : Z) (k : Z) : Z :=
  let d := Z.pow 2 k in
  let q := Z.div a d in
  let r := Z.modulo a d in
  match Z.compare (2 * r) d with
  | Lt => q
  | Gt => q + 1
  | Eq => if Z.even q then q else q + 1
  end.

(** [round(x, 2)]: the exact binary value is rounded half-even to two
    decimals, and the decimal result is read back as the nearest double. *)
Definition round2 (x : float) : float :=
  match x with
  | S754_finite s m e =>
      let a := 100 * Zpos m in
      let n := if Z.leb 0 e then a * Z.pow 2 e else rne_shift a (- e) in
      match n with
      | Z0 => S754_zero s
      | _ => div (of_int (if s then - n else n)) (of_int 100)
      end
  | _ => x
  end.

(** [sum(xs)] on floats is not the same function in every interpreter: up
    to CPython 3.11 the items are added one by one, left to right, each
    addition rounded; from 3.12 on the rounding errors of these additions
    are gathered in a compensation term (Neumaier's summation), added at the
    end.  The source does not say which interpreter runs it, so the scorer
    takes the summation as a parameter. *)
Inductive summation : Type :=
| Plain
| Compensated.

(** The running sum and its compensation. *)
Definition acc : Type := (float * float)%type.

Definition sum_step (how : summation) (a : acc) (x : float) : acc :=
  let (f, c) := a in
  let t := add f x in
  match how with
  | Plain => (t, c)
  | Compensated =>
      if leb (abs x) (abs f)
      then (t, add c (add (sub f t) x))
      else (t, add c (add (sub x t) f))
  end.

(** The compensation is added when it is finite and not zero. *)
Definition sum_result (a : acc) : float :=
  let (f, c) := a in
  match c with
  | S754_finite _ _ _ => add f c
  | _ => f
  end.

Definition sum (how : summation) (xs : list float) : float :=
  sum_result (fold_left (sum_step how) xs (zero, zero)).

End PyFloat.

(** ** Python's strings *)

Module PyStr.

(** [c.lower()] and [c.upper()] on an ASCII character: the letters change,
    every other byte is kept. *)
Definition lower_char (c : ascii) : ascii :=
  let n := nat_of_ascii c in
  if (Nat.leb 65 n && Nat.leb n 90)%bool then ascii_of_nat (n + 32) else c.

Definition upper_char (c : ascii) : ascii :=
  let n := nat_of_ascii c in
  if (Nat.leb 97 n && Nat.leb n 122)%bool then ascii_of_nat (n - 32) else c.

Definition byte (n : N) : ascii := ascii_of_N n.

Definition byte_is (n : N) (c : ascii) : bool := Ascii.eqb c (byte n).

(** [s.lower()], as far as a search for an ASCII text in it can tell.
    [str.lower] lower-cases the ASCII letters, and two characters beyond
    ASCII to an ASCII letter: U+0130, capital I with dot above (bytes C4 B0),
    becomes i followed by U+0307, the combining dot above (bytes CC 87), and
    U+212A, the Kelvin sign (bytes E2 84 AA), becomes k.  Every other
    character beyond ASCII lower-cases to one or more characters beyond
    ASCII, and is kept here as it is.  The runs of ASCII characters of the
    result are then those of [str.lower], and [k in s.lower()] is the same
    test for every ASCII [k]: the only use the scorer makes of the
    lower-cased text, all its markers being ASCII. *)
Fixpoint lower (s : string) : string :=
  match s with
  | EmptyString => EmptyString
  | String c s1 =>
      match s1 with
      | String d s2 =>
          if byte_is 0xC4 c && byte_is 0xB0 d
          then String "i" (String (byte 0xCC) (String (byte 0x87) (lower s2)))
          else
            match s2 with
            | String e s3 =>
                if byte_is 0xE2 c && byte_is 0x84 d && byte_is 0xAA e
                then String "k" (lower s3)
                else String (lower_char c) (lower s1)
            | EmptyString => String (lower_char c) (lower s1)
            end
      | EmptyString => String (lower_char c) (lower s1)
      end
  end.

(** [k in s]: [k] occurs in [s] as a substring. *)
Fixpoint contains (k s : string) : bool :=
  prefix k s ||
  match s with
  | EmptyString => false
  | String _ s' => contains k s'
  end.

(** [sep.join(xs)] *)
Definition join (sep : string) (xs : list string) : string := concat sep xs.

End PyStr.

(** ** Insertion-ordered dictionaries with string keys *)

Module PyDict.

Definition dict (V : Type) := list (string * V).

Fixpoint set {V} (d : dict V) (k : string) (v : V) : dict V :=
  match d with
  | [] => [(k, v)]
  | (k', v') :: d' =>
      if String.eqb k' k then (k', v) :: d' else (k', v') :: set d' k v
  end.

Fixpoint get {V} (d : dict V) (k : string) (default : V) : V :=
  match d with
  | [] => default
  | (k', v') :: d' => if String.eqb k' k then v' else get d' k default
  end.

Definition keys {V} (d : dict V) : list string := map fst d.
Definition values {V} (d : dict V) : list V := map snd d.

End PyDict.

(** ** The scorer, [analyze_text] *)

Definition clusters : PyDict.dict (list string) :=
  [ ("privacy", ["privacy"; "personal data"; "pii"; "consent"; "gdpr"; "ccpa"]);
    ("security", ["encryption"; "access control"; "key management"; "vulnerability"; "patch"; "incident"]);
    ("governance", ["risk"; "policy"; "procedure"; "audit"; "control"; "evidence"]);
    ("retention", ["retention"; "archiv"; "delete"; "erase"; "data minimization"]);
    ("training", ["training"; "awareness"; "onboarding"; "annual"; "phishing"]);
    ("vendor", ["third party"; "vendor"; "processor"; "subprocessor"; "assessment"]) ].

(** [sum(1 for k in kws if k in lower)] *)
Definition hits (lower : string) (kws : list string) : Z :=
  Z.of_nat (List.length (filter (fun k => PyStr.contains k lower) kws)).

Definition gap_message (label : string) : string :=
  "Missing any mention of " ++ label ++ " controls".

(** The three lists the loop over the clusters fills. *)
Record loop_state := {
  st_keyword_coverage : PyDict.dict PyFloat.float;
  st_present_labels : list string;
  st_gaps : list string
}.

(** [hits / max(len(kws), 1)] *)
Definition score_of (lower : string) (kws : list string) : PyFloat.float :=
  PyFloat.truediv (hits lower kws) (Z.max (Z.of_nat (List.length kws)) 1).

Definition loop_body (lower : string) (st : loop_state)
    (item : string * list string) : loop_state :=
  let (label, kws) := item in
  let score := score_of lower kws in
  let kc := PyDict.set (st_keyword_coverage st) label (PyFloat.round2 score) in
  if PyFloat.ltb PyFloat.zero score
  then {| st_keyword_coverage := kc;
          st_present_labels := (st_present_labels st ++ [label])%list;
          st_gaps := st_gaps st |}
  else {| st_keyword_coverage := kc;
          st_present_labels := st_present_labels st;
          st_gaps := (st_gaps st ++ [gap_message label])%list |}.

Definition run_loop (lower : string) : loop_state :=
  fold_left (loop_body lower) clusters
    {| st_keyword_coverage := []; st_present_labels := []; st_gaps := [] |}.

Definition vibe_rock_solid : string :=
  "rock-solid — almost party-ready for auditors!".
Definition vibe_decent : string :=
  "decent — with a few rhythm breaks to smooth out.".
Definition vibe_work_in_progress : string :=
  "a work-in-progress — let's add some shiny controls.".

Definition advice : list (string * string) :=
  [ ("privacy", "Add a clear privacy section covering consent, PII handling and data rights.");
    ("security", "Document technical controls like encryption at rest/in transit and access policies.");
    ("governance", "Describe your risk assessment, audit cadence and evidence collection.");
    ("retention", "Define data retention schedules and deletion processes.");
    ("training", "Include security awareness and annual training details.");
    ("vendor", "Explain third-party risk management and vendor assessments.") ].

(** The chain of [if keyword_coverage.get(label, 0) < 0.5: append(...)]. *)
Definition advise (keyword_coverage : PyDict.dict PyFloat.float) : list string :=
  flat_map
    (fun la : string * string =>
       if PyFloat.ltb (PyDict.get keyword_coverage (fst la) PyFloat.zero) PyFloat.half
       then [snd la] else [])
    advice.

(** The locals of [analyze_text] when it reaches its [return]. *)
Record locals := {
  l_keyword_coverage : PyDict.dict PyFloat.float;
  l_present_labels : list string;
  l_gaps : list string;
  l_coverage_score : PyFloat.float;
  l_vibe : string;
  l_summary : string;
  l_recommendations : list string
}.

(** The dictionary [analyze_text] returns: four keys. *)
Record analysis := {
  coverage_score : PyFloat.float;
  keyword_coverage : PyDict.dict PyFloat.float;
  gaps : list string;
  summary : string
}.

(** [text.lower() if text else ""] *)
Definition lowered (text : string) : string :=
  match text with EmptyString => "" | _ => PyStr.lower text end.

(** The rest of the body, from the lists the loop has filled. *)
Definition after_loop (how : PyFloat.summation) (st : loop_state) : locals :=
  let kc := st_keyword_coverage st in
  let cs :=
    PyFloat.round2
      (PyFloat.div (PyFloat.sum how (PyDict.values kc))
         (PyFloat.of_int (Z.max (Z.of_nat (List.length kc)) 1))) in
  let vibe :=
    if PyFloat.leb PyFloat.three_quarters cs then vibe_rock_solid
    else if PyFloat.leb PyFloat.half cs then vibe_decent
    else vibe_work_in_progress in
  let summary :=
    "Your compliance groove is " ++ vibe ++ " " ++
    "Highlights: " ++
    match st_present_labels st with
    | [] => "none yet"
    | ls => PyStr.join ", " ls
    end in
  {| l_keyword_coverage := kc;
     l_present_labels := st_present_labels st;
     l_gaps := st_gaps st;
     l_coverage_score := cs;
     l_vibe := vibe;
     l_summary := summary;
     l_recommendations := advise kc |}.

Definition analyze_locals (how : PyFloat.summation) (text : string) : locals :=
  let lower := lowered text in
  after_loop how (run_loop lower).

Definition analyze_text (how : PyFloat.summation) (text : string) : analysis :=
  let l := analyze_locals how text in
  {| coverage_score := l_coverage_score l;
     keyword_coverage := l_keyword_coverage l;
     gaps := l_gaps l;
     summary := l_summary l |}.

(** ** The handler of POST /api/analyze, [upload_and_analyze] *)

(** What a call that can raise comes to: a value, or an [Exception]. *)
Inductive outcome (A : Type) : Type :=
| Returns (a : A)
| Raises.
Arguments Returns {A} a.
Arguments Raises {A}.

(** The uploaded file as the handler sees it: [read] is what
    [await file.read()] comes to. *)
Record UploadFile := {
  filename : string;
  content_type : option string;
  read : outcome (list Byte.byte)
}.

(** The record handed to the persistence collaborator. *)
Record payload := {
  p_title : string;
  p_filename : string;
  p_size : Z;
  p_mime_type : string;
  p_analysis : analysis;
  p_uploaded_at : string
}.

Record AnalyzeResponse := {
  r_id : option string;
  r_filename : string;
  r_size : Z;
  r_mime_type : string;
  r_uploaded_at : string;
  r_summary : string;
  r_coverage_score : PyFloat.float;
  r_keyword_coverage : PyDict.dict PyFloat.float;
  r_gaps : list string;
  r_recommendations : list string
}.

Inductive http_result : Type :=
| Response (r : AnalyzeResponse)
| HTTPException (status_code : Z) (detail : string).

(** [x or y] on strings: the empty string is falsy. *)
Definition str_or (x y : string) : string :=
  match x with EmptyString => y | _ => x end.

(** [x or y] where [x] may be [None]. *)
Definition opt_str_or (x : option string) (y : string) : string :=
  match x with Some s => str_or s y | None => y end.

Definition encouragement : list string :=
  [ "Celebrate the wins: compliance keeps users safe and builds trust.";
    "We smooth the annoying bits with templates, checklists and automation." ].

(** The [database] module, when it can be imported: [create_document]. *)
Definition database := string -> payload -> outcome string.

Section Handler.

(** The interpreter's [sum]. *)
Variable how : PyFloat.summation.

(** [bytes.decode(errors="ignore")]: the built-in lossy decoder, total. *)
Variable decode : list Byte.byte -> string.

(** [None]: [from database import create_document] raises. *)
Variable db : option database.

(** [datetime.utcnow()] at the two places it is read, as ISO-8601 text. *)
Variable now_stored now_replied : string.

(** The [payload] dictionary of the [try] block. *)
Definition payload_of (file : UploadFile) (doc_title : string)
    (content_bytes : list Byte.byte) (a : analysis) : payload :=
  {| p_title := str_or doc_title (filename file);
     p_filename := filename file;
     p_size := Z.of_nat (List.length content_bytes);
     p_mime_type := opt_str_or (content_type file) "text/plain";
     p_analysis := a;
     p_uploaded_at := now_stored |}.

(** The [try] block around the persistence call, with its [except]. *)
Definition store (file : UploadFile) (doc_title : string)
    (content_bytes : list Byte.byte) (a : analysis) : option string :=
  match db with
  | None => None
  | Some create_document =>
      let p := payload_of file doc_title content_bytes a in
      match create_document "analysis" p with
      | Returns id => Some id
      | Raises => None
      end
  end.

Definition upload_and_analyze (file : UploadFile) (doc_title : string)
    : http_result :=
  match read file with
  | Raises => HTTPException 400 "Unable to read uploaded file"
  | Returns content_bytes =>
      let text := decode content_bytes in
      let a := analyze_text how text in
      let inserted_id := store file doc_title content_bytes a in
      Response
        {| r_id := inserted_id;
           r_filename := filename file;
           r_size := Z.of_nat (List.length content_bytes);
           r_mime_type := opt_str_or (content_type file) "text/plain";
           r_uploaded_at := now_replied ++ "Z";
           r_summary := summary a;
           r_coverage_score := coverage_score a;
           r_keyword_coverage := keyword_coverage a;
           r_gaps := gaps a;
           r_recommendations := (gaps a ++ encouragement)%list |}
  end.

End Handler.

(** The decoder on well-formed input, where it drops nothing: the text is
    kept as its bytes. *)
Definition decode_wellformed (bs : list Byte.byte) : string :=
  string_of_list_byte bs.

(** ** The listing, [list_analyses] *)

(** The values a stored document can hold. *)
Unset Elimination Schemes.
Inductive value : Type :=
| VNone
| VBool (b : bool)
| VInt (n : Z)
| VFloat (f : PyFloat.float)
| VStr (s : string)
| VDatetime (iso : string)
| VObjectId (hex : string)
| VList (l : list value)
| VDict (d : list (string * value)).
Set Elimination Schemes.

(** [bool(x)], the test of [if x]. *)
Definition truthy (x : value) : bool :=
  match x with
  | VNone => false
  | VBool b => b
  | VInt n => negb (Z.eqb n 0)
  | VFloat f => match f with S754_zero _ => false | _ => true end
  | VStr s => match s with EmptyString => false | _ => true end
  | VDatetime _ => true
  | VObjectId _ => true
  | VList l => match l with [] => false | _ => true end
  | VDict d => match d with [] => false | _ => true end
  end.

(** [x.get(k, default)]: only a dictionary has the method. *)
Definition get_method (x : value) (k : string) (default : value) : outcome value :=
  match x with
  | VDict d => Returns (PyDict.get d k default)
  | _ => Raises
  end.

(** [x.isoformat()]: only a datetime has the method; [iso] is its result. *)
Definition isoformat (x : value) : outcome string :=
  match x with
  | VDatetime iso => Returns iso
  | _ => Raises
  end.

Definition bind {A B} (c : outcome A) (k : A -> outcome B) : outcome B :=
  match c with
  | Returns a => k a
  | Raises => Raises
  end.

Notation "x <- c ;; k" := (bind c (fun x => k))
  (at level 61, c at next level, right associativity).

(** One entry of ["items"]. *)
Record item := {
  i_id : string;
  i_title : value;
  i_filename : value;
  i_size : value;
  i_uploaded_at : option string;
  i_coverage_score : value
}.

(** [get_documents(collection_name, filter_dict, limit)] of the [database]
    module. *)
Definition documents := string -> list (string * value) -> Z -> outcome (list value).

Section Listing.

(** [str(x)], the built-in. *)
Variable str : value -> string.

(** [None]: [from database import get_documents] raises. *)
Variable db : option documents.

(** The dictionary appended for one document [d]. *)
Definition normalize (d : value) : outcome item :=
  _id <- get_method d "_id" VNone ;;
  title <- get_method d "title" VNone ;;
  filename <- get_method d "filename" VNone ;;
  size <- get_method d "size" VNone ;;
  uploaded <- get_method d "uploaded_at" VNone ;;
  uploaded_at <-
    (if truthy uploaded
     then iso <- isoformat uploaded ;; Returns (Some (iso ++ "Z"))
     else Returns None) ;;
  analysis <- get_method d "analysis" (VDict []) ;;
  coverage_score <- get_method analysis "coverage_score" VNone ;;
  Returns {| i_id := str _id;
             i_title := title;
             i_filename := filename;
             i_size := size;
             i_uploaded_at := uploaded_at;
             i_coverage_score := coverage_score |}.

(** The loop [for d in docs: result.append(...)]. *)
Fixpoint normalize_all (docs : list value) (result : list item)
    : outcome (list item) :=
  match docs with
  | [] => Returns result
  | d :: docs' =>
      it <- normalize d ;;
      normalize_all docs' (result ++ [it])%list
  end.

(** The value of ["items"] in what [list_analyses] returns. *)
Definition list_analyses (limit : Z) : list item :=
  match db with
  | None => []
  | Some get_documents =>
      match (docs <- get_documents "analysis" [] limit ;; normalize_all docs []) with
      | Returns result => result
      | Raises => []
      end
  end.

End Listing.

(** ** The diagnostic, [test_database] *)

(** An [Exception] with its [str()]: an [ImportError], or any other. *)
Inductive exn : Type :=
| ImportError (message : string)
| OtherError (message : string).

Definition message (e : exn) : string :=
  match e with ImportError m => m | OtherError m => m end.

Inductive attempt (A : Type) : Type :=
| Done (a : A)
| Raised (e : exn).
Arguments Done {A} a.
Arguments Raised {A} e.

(** The [db] object of the [database] module: its [name] attribute, [None]
    when it has none, and what [list_collection_names()] comes to. *)
Record Database := {
  db_name : attempt (option string);
  list_collection_names : attempt (list string)
}.

(** The first [n] characters of a text held as UTF-8 bytes, [s[:n]]: the
    bytes 10xxxxxx continue a character. *)
Definition continues (c : ascii) : bool :=
  let n := nat_of_ascii c in (Nat.leb 128 n && Nat.ltb n 192)%bool.

Fixpoint take_chars (n : nat) (s : string) : string :=
  match s with
  | EmptyString => EmptyString
  | String c s' =>
      if continues c then String c (take_chars n s')
      else match n with
           | O => EmptyString
           | S n' => String c (take_chars n' s')
           end
  end.

(** [len(s)] for such a text. *)
Fixpoint count_chars (s : string) : nat :=
  match s with
  | EmptyString => O
  | String c s' => if continues c then count_chars s' else S (count_chars s')
  end.

Record diagnosis := {
  backend : string;
  database_status : string;
  database_url : option string;
  database_name : option string;
  connection_status : string;
  collections : list string
}.

Definition set_database (r : diagnosis) (v : string) : diagnosis :=
  {| backend := backend r; database_status := v;
     database_url := database_url r; database_name := database_name r;
     connection_status := connection_status r; collections := collections r |}.

Definition set_database_url (r : diagnosis) (v : option string) : diagnosis :=
  {| backend := backend r; database_status := database_status r;
     database_url := v; database_name := database_name r;
     connection_status := connection_status r; collections := collections r |}.

Definition set_database_name (r : diagnosis) (v : option string) : diagnosis :=
  {| backend := backend r; database_status := database_status r;
     database_url := database_url r; database_name := v;
     connection_status := connection_status r; collections := collections r |}.

Definition set_connection_status (r : diagnosis) (v : string) : diagnosis :=
  {| backend := backend r; database_status := database_status r;
     database_url := database_url r; database_name := database_name r;
     connection_status := v; collections := collections r |}.

Definition set_collections (r : diagnosis) (v : list string) : diagnosis :=
  {| backend := backend r; database_status := database_status r;
     database_url := database_url r; database_name := database_name r;
     connection_status := connection_status r; collections := v |}.

Definition running : string := "✅ Running".
Definition not_available : string := "❌ Not Available".
Definition available : string := "✅ Available".
Definition configured : string := "✅ Configured".
Definition connected : string := "✅ Connected".
Definition connected_and_working : string := "✅ Connected & Working".
Definition connected_but_error : string := "⚠️  Connected but Error: ".
Definition not_initialized : string := "⚠️  Available but not initialized".
Definition module_not_found : string :=
  "❌ Database module not found (run enable-database first)".
Definition error_prefix : string := "❌ Error: ".
Definition is_set : string := "✅ Set".
Definition not_set : string := "❌ Not Set".

Section Diagnostic.

(** What [from database import db] comes to; [Done None] is [db is None]. *)
Variable import_db : attempt (option Database).

(** [os.getenv] *)
Variable getenv : string -> option string.

(** The outer [try] block: the response as it leaves it, and the exception
    that left it, if any. *)
Definition probe (response : diagnosis) : diagnosis * option exn :=
  match import_db with
  | Raised e => (response, Some e)
  | Done None => (set_database response not_initialized, None)
  | Done (Some db) =>
      let response := set_database response available in
      let response := set_database_url response (Some configured) in
      match db_name db with
      | Raised e => (response, Some e)
      | Done name =>
          let response :=
            set_database_name response
              (Some (match name with Some v => v | None => connected end)) in
          let response := set_connection_status response "Connected" in
          match list_collection_names db with
          | Done names =>
              let response := set_collections response (firstn 10 names) in
              (set_database response connected_and_working, None)
          | Raised e =>
              (set_database response
                 (connected_but_error ++ take_chars 50 (message e)), None)
          end
      end
  end.

(** ["... Set" if os.getenv(name) else "... Not Set"] *)
Definition env_status (name : string) : string :=
  match getenv name with
  | Some (String _ _) => is_set
  | _ => not_set
  end.

Definition test_database : diagnosis :=
  let response :=
    {| backend := running;
       database_status := not_available;
       database_url := None;
       database_name := None;
       connection_status := "Not Connected";
       collections := [] |} in
  let response :=
    match probe response with
    | (response, None) => response
    | (response, Some (ImportError _)) => set_database response module_not_found
    | (response, Some (OtherError m)) =>
        set_database response (error_prefix ++ take_chars 50 m)
    end in
  let response := set_database_url response (Some (env_status "DATABASE_URL")) in
  let response := set_database_name response (Some (env_status "DATABASE_NAME")) in
  response.

End Diagnostic.

(** ** Auxiliary definitions for the proofs *)

(** *** The loop, list by list *)

Definition present (lower : string) (item : string * list string) : bool :=
  PyFloat.ltb PyFloat.zero (score_of lower (snd item)).

Definition coverage_of (lower : string) (cl : PyDict.dict (list string))
    : PyDict.dict PyFloat.float :=
  map (fun item => (fst item, PyFloat.round2 (score_of lower (snd item)))) cl.

Definition present_of (lower : string) (cl : PyDict.dict (list string)) : list string :=
  map fst (filter (present lower) cl).

Definition gaps_of (lower : string) (cl : PyDict.dict (list string)) : list string :=
  map (fun item => gap_message (fst item))
    (filter (fun item => negb (present lower item)) cl).

(** *** Fractions in hundredths, and the sums the loop can reach *)

(** The integer [n] with [round(h / len, 2) = n / 100]. *)
Definition hundredths (h len : Z) : Z :=
  let q := (100 * h) / len in
  let r := (100 * h) mod len in
  match Z.compare (2 * r) len with
  | Lt => q
  | Gt => q + 1
  | Eq => if Z.even q then q else q + 1
  end.

Definition upto (n : nat) : list Z := map Z.of_nat (seq 0 (S n)).

(** The values a cluster of [len] markers can take, in hundredths. *)
Definition steps (len : nat) : list Z :=
  map (fun h => hundredths h (Z.of_nat len)) (upto len).

Definition hundredths_of (lower : string) : list Z :=
  map (fun item : string * list string =>
         hundredths (hits lower (snd item)) (Z.of_nat (List.length (snd item))))
    clusters.

Definition total (ws : list Z) : Z := fold_left Z.add ws 0.

Definition float_same (a b : PyFloat.float) : bool :=
  match a, b with
  | S754_zero s, S754_zero t => Bool.eqb s t
  | S754_infinity s, S754_infinity t => Bool.eqb s t
  | S754_finite s m e, S754_finite t n f =>
      Bool.eqb s t && Pos.eqb m n && Z.eqb e f
  | _, _ => false
  end.

(** An exact total in hundredths with the state of the summation, and with
    a float. *)
Definition state : Type := (Z * PyFloat.acc)%type.
Definition entry : Type := (Z * PyFloat.float)%type.

Definition acc_same (a b : PyFloat.acc) : bool :=
  float_same (fst a) (fst b) && float_same (snd a) (snd b).

Definition state_same (p q : state) : bool :=
  Z.eqb (fst p) (fst q) && acc_same (snd p) (snd q).

Definition entry_same (p q : entry) : bool :=
  Z.eqb (fst p) (fst q) && float_same (snd p) (snd q).

Fixpoint dedup {A} (same : A -> A -> bool) (l : list A) : list A :=
  match l with
  | [] => []
  | x :: l' =>
      let d := dedup same l' in
      if existsb (same x) d then d else x :: d
  end.

(** The states without repetition, gathered by their totals. *)
Definition key (T : Z) : positive :=
  match T with
  | Z0 => 1%positive
  | Zpos p => (p~0)%positive
  | Zneg p => (p~1)%positive
  end.

Definition buckets : Type := PositiveMap.t (list state).

Definition bucket_insert (m : buckets) (p : state) : buckets :=
  let k := key (fst p) in
  match PositiveMap.find k m with
  | None => PositiveMap.add k [p] m
  | Some b => if existsb (state_same p) b then m else PositiveMap.add k (p :: b) m
  end.

Definition dedup_states (l : list state) : list state :=
  flat_map snd
    (PositiveMap.elements (fold_left bucket_insert l (PositiveMap.empty (list state)))).

(** A state that is in a bucket of the map. *)
Definition held (m : buckets) (x : state) : Prop :=
  exists b, PositiveMap.find (key (fst x)) m = Some b /\ In x b.

(** One more cluster: every state met so far, stepped by every value of
    the cluster. *)
Definition stage (how : PyFloat.summation) (V : list Z) (R : list state) : list state :=
  dedup_states
    (flat_map
       (fun p : state =>
          map (fun v => (fst p + v, PyFloat.sum_step how (snd p) (PyFloat.dec2 v))) V)
       R).

Definition stages (how : PyFloat.summation) (lens : list nat) (R : list state)
    : list state :=
  fold_left (fun R len => stage how (steps len) R) lens R.

Definition cluster_sizes : list nat :=
  map (fun item : string * list string => List.length (snd item)) clusters.

Definition start : list state := [(0, (PyFloat.zero, PyFloat.zero))].

(** [round(s / 6, 2)] *)
Definition mean_of (s : PyFloat.float) : PyFloat.float :=
  PyFloat.round2 (PyFloat.div s (PyFloat.of_int 6)).

Definition means_of (R : list state) : list entry :=
  dedup entry_same
    (map (fun p : state => (fst p, mean_of (PyFloat.sum_result (snd p)))) R).

(** Every state [sum(keyword_coverage.values())] can end in, with the exact
    total, and every score that comes of them. *)
Definition reach_plain : list state :=
  Eval vm_compute in stages PyFloat.Plain cluster_sizes start.

Definition means_plain : list entry :=
  Eval vm_compute in means_of reach_plain.

Definition reach_compensated : list state :=
  Eval vm_compute in stages PyFloat.Compensated cluster_sizes start.

Definition means_compensated : list entry :=
  Eval vm_compute in means_of reach_compensated.

Definition reach (how : PyFloat.summation) : list state :=
  match how with
  | PyFloat.Plain => reach_plain
  | PyFloat.Compensated => reach_compensated
  end.

Definition means (how : PyFloat.summation) : list entry :=
  match how with
  | PyFloat.Plain => means_plain
  | PyFloat.Compensated => means_compensated
  end.

Definition in_unit (x : PyFloat.float) : bool :=
  PyFloat.leb PyFloat.zero x && PyFloat.leb x PyFloat.one.

Definition means_monotone (l : list entry) : bool :=
  forallb
    (fun p : entry =>
       PyFloat.leb (snd p) (snd p) &&
       forallb
         (fun q : entry =>
            implb (Z.ltb (fst p) (fst q)) (PyFloat.leb (snd p) (snd q)))
         l)
    l.

(** The fraction of a cluster does not fall when its hits rise. *)
Definition step_monotone (len : nat) (h h' : Z) : bool :=
  implb (h <=? h')
    ((hundredths h (Z.of_nat len) <=? hundredths h' (Z.of_nat len)) &&
     PyFloat.leb (PyFloat.dec2 (hundredths h (Z.of_nat len)))
                 (PyFloat.dec2 (hundredths h' (Z.of_nat len)))).

(** Rounding to two decimals keeps a fraction positive, for [h] hits of
    [len] markers. *)
Definition positive_kept (len : nat) (h : Z) : bool :=
  Bool.eqb
    (PyFloat.ltb PyFloat.zero
       (PyFloat.round2 (PyFloat.truediv h (Z.max (Z.of_nat len) 1))))
    (PyFloat.ltb PyFloat.zero (PyFloat.truediv h (Z.max (Z.of_nat len) 1))).

(** *** Texts used to state the claims *)

(** An ASCII character, and a text of ASCII characters. *)
Definition plain_char (c : ascii) : bool := Nat.ltb (nat_of_ascii c) 128.

Fixpoint plain (k : string) : bool :=
  match k with
  | EmptyString => true
  | String c k' => plain_char c && plain k'
  end.

(** The character beyond ASCII a text begins with, when [PyStr.lower]
    changes it: what it becomes, and the text after it. *)
Definition special (s : string) : option (string * string) :=
  match s with
  | String c (String d s2) =>
      if PyStr.byte_is 0xC4 c && PyStr.byte_is 0xB0 d
      then Some (String "i" (String (PyStr.byte 0xCC) (String (PyStr.byte 0x87) "")), s2)
      else
        match s2 with
        | String e s3 =>
            if PyStr.byte_is 0xE2 c && PyStr.byte_is 0x84 d && PyStr.byte_is 0xAA e
            then Some ("k", s3)
            else None
        | EmptyString => None
        end
  | _ => None
  end.

(** What an ASCII text begins or occurs in [a], it begins or occurs in [b]. *)
Definition kept (a b : string) : Prop :=
  (forall k, plain k = true -> String.prefix k a = true -> String.prefix k b = true) /\
  (forall k, plain k = true -> k <> "" ->
     PyStr.contains k a = true -> PyStr.contains k b = true).

(** [t] is [s] with the case of some of its ASCII letters changed. *)
Fixpoint recased (s t : string) : Prop :=
  match s, t with
  | EmptyString, EmptyString => True
  | String a s', String b t' =>
      (b = a \/ b = PyStr.upper_char a \/ b = PyStr.lower_char a) /\ recased s' t'
  | _, _ => False
  end.

(** [s.upper()] for a text of ASCII characters, of U+0131, the dotless i
    (bytes C4 B1), whose upper case is I, and of U+017F, the long s (bytes
    C5 BF), whose upper case is S; [None] for a text with another character
    beyond ASCII. *)
Fixpoint upper (s : string) : option string :=
  match s with
  | EmptyString => Some EmptyString
  | String c s1 =>
      if plain_char c
      then option_map (String (PyStr.upper_char c)) (upper s1)
      else
        match s1 with
        | String d s2 =>
            if PyStr.byte_is 0xC4 c && PyStr.byte_is 0xB1 d
            then option_map (String "I") (upper s2)
            else if PyStr.byte_is 0xC5 c && PyStr.byte_is 0xBF d
            then option_map (String "S") (upper s2)
            else None
        | EmptyString => None
        end
  end.

(** The Kelvin sign, U+212A, and capital I with dot above, U+0130. *)
Definition kelvin_sign : string :=
  String (PyStr.byte 0xE2) (String (PyStr.byte 0x84) (String (PyStr.byte 0xAA) "")).

Definition dotted_capital_i : string :=
  String (PyStr.byte 0xC4) (String (PyStr.byte 0xB0) "").

(** The word privacy, written with a dotless i. *)
Definition dotless_privacy : string :=
  "pr" ++ String (PyStr.byte 0xC4) (String (PyStr.byte 0xB1) "vacy").

Definition markers : list string := flat_map snd clusters.

Definition labels : list string := PyDict.keys clusters.

(** A text with every marker of every cluster. *)
Definition every_marker : string := PyStr.join " " markers.

(** Every one of the given markers occurs in the lower-cased text. *)
Definition has_all (text : string) (ks : list string) : Prop :=
  forall k, In k ks -> PyStr.contains k (PyStr.lower text) = true.

(** The fraction of a cluster in a report. *)
Definition fraction (a : analysis) (label : string) : PyFloat.float :=
  PyDict.get (keyword_coverage a) label PyFloat.zero.

(** The scenario of the two security markers, as the specification words
    it: both occur, and no marker of another cluster does. *)
Definition two_security_markers_alone (text : string) : Prop :=
  has_all text ["encryption"; "access control"] /\
  forall label kws k,
    In (label, kws) clusters -> label <> "security" -> In k kws ->
    PyStr.contains k (PyStr.lower text) = false.

(** What the specification expects of that scenario. *)
Definition two_security_markers_expected (a : analysis) : Prop :=
  fraction a "security" = PyFloat.dec2 33 /\
  (forall label, In label labels -> label <> "security" ->
     fraction a label = PyFloat.zero) /\
  coverage_score a = PyFloat.dec2 6 /\
  gaps a = map gap_message ["privacy"; "governance"; "retention"; "training"; "vendor"].

(** The scenario as the code admits it: the two markers occur, and so
    does "control", which "access control" ends with; no other marker does. *)
Definition two_security_markers_and_control (text : string) : Prop :=
  has_all text ["encryption"; "access control"] /\
  forall k, In k markers ->
    k <> "encryption" -> k <> "access control" -> k <> "control" ->
    PyStr.contains k (PyStr.lower text) = false.

(** The persistence collaborator fails on a payload: it is not there to
    import, or its call raises. *)
Definition failing (db : option database) (p : payload) : Prop :=
  match db with
  | None => True
  | Some create_document => create_document "analysis" p = Raises
  end.

(** An upload of a plain-text file with the given content. *)
Definition text_upload (name content : string) : UploadFile :=
  {| filename := name;
     content_type := Some "text/plain";
     read := Returns (list_byte_of_string content) |}.

(** *** Documents, as the upload stores them *)

(** The dictionary [analyze_text] returns, as a stored value. *)
Definition analysis_dict (a : analysis) : value :=
  VDict
    [ ("coverage_score", VFloat (coverage_score a));
      ("keyword_coverage",
       VDict (map (fun kv : string * PyFloat.float => (fst kv, VFloat (snd kv)))
                (keyword_coverage a)));
      ("gaps", VList (map VStr (gaps a)));
      ("summary", VStr (summary a)) ].

(** The [payload] dictionary of the upload, as stored values. *)
Definition payload_dict (p : payload) : list (string * value) :=
  [ ("title", VStr (p_title p));
    ("filename", VStr (p_filename p));
    ("size", VInt (p_size p));
    ("mime_type", VStr (p_mime_type p));
    ("analysis", analysis_dict (p_analysis p));
    ("uploaded_at", VDatetime (p_uploaded_at p)) ].

(** A stored document that has kept the fields of the payload the listing
    reads; it may hold more, its identifier for one. *)
Definition keeps (d : list (string * value)) (p : payload) : Prop :=
  forall k default,
    In k ["title"; "filename"; "size"; "uploaded_at"; "analysis"] ->
    PyDict.get d k default = PyDict.get (payload_dict p) k default.

(** A document the listing can render: a dictionary whose ["uploaded_at"]
    is falsy or a datetime and whose ["analysis"], if any, is a dictionary. *)
Definition renderable (d : value) : Prop :=
  match d with
  | VDict fields =>
      (truthy (PyDict.get fields "uploaded_at" VNone) = true ->
       exists iso, PyDict.get fields "uploaded_at" VNone = VDatetime iso) /\
      (exists ad, PyDict.get fields "analysis" (VDict []) = VDict ad)
  | _ => False
  end.

(** [str()] on the identifiers of the examples. *)
Definition str_of_id (x : value) : string :=
  match x with
  | VObjectId hex => hex
  | VStr s => s
  | _ => "None"
  end.

(** *** Checks on the tables, for the further properties *)

(** What the hundredths of a cluster tell of its hits. *)
Definition step_facts (len : nat) (h : Z) : bool :=
  let w := hundredths h (Z.of_nat len) in
  (0 <=? w) && (w <=? 100) &&
  Bool.eqb (w =? 0) (h =? 0) &&
  Bool.eqb (w =? 100) (h =? Z.of_nat len) &&
  implb (PyFloat.leb PyFloat.half (PyFloat.dec2 w)) (50 <=? w).

(** What the score tells of the exact total. *)
Definition mean_facts (p : entry) : bool :=
  Bool.eqb (float_same (snd p) PyFloat.zero) (fst p =? 0) &&
  Bool.eqb (float_same (snd p) PyFloat.one) (fst p =? 600) &&
  implb (PyFloat.leb PyFloat.three_quarters (snd p)) (400 <? fst p) &&
  implb (PyFloat.leb PyFloat.half (snd p)) (200 <? fst p) &&
  implb (300 <=? fst p) (PyFloat.leb PyFloat.half (snd p)).

(** The gaps a tier leaves room for. *)
Definition gaps_allowed (vibe : string) : nat :=
  if String.eqb vibe vibe_rock_solid then 1
  else if String.eqb vibe vibe_decent then 3
  else 6.

(** * Properties *)

(** ** Substrings and lower-casing *)

Module PyStrFacts.
Import PyStr.

Lemma prefix_app_iff (k s : string) :
  prefix k s = true <-> exists q, s = k ++ q.
Proof.
  revert s; induction k as [|c k IH]; intros s; simpl.
  - split; [intros _; now exists s | now destruct s].
  - destruct s as [|d s]; simpl.
    + split; [discriminate | intros [q Hq]; discriminate].
    + destruct (ascii_dec c d) as [->|Hcd].
      * rewrite IH. split; intros [q Hq]; exists q; congruence.
      * split; [discriminate | intros [q Hq]; congruence].
Qed.

Lemma contains_iff (k s : string) :
  contains k s = true <-> exists p q, s = p ++ k ++ q.
Proof.
  induction s as [|d s IH]; cbn [contains].
  - rewrite orb_false_r, prefix_app_iff. split.
    + intros [q Hq]. now exists "", q.
    + intros [p [q Hq]]. destruct p; simpl in Hq; [now exists q | discriminate].
  - rewrite orb_true_iff, IH, prefix_app_iff. split.
    + intros [[q Hq] | [p [q Hq]]].
      * now exists "", q.
      * exists (String d p), q. simpl. now rewrite Hq.
    + intros [p [q Hq]]. destruct p as [|e p]; simpl in Hq.
      * left. now exists q.
      * right. exists p, q. congruence.
Qed.

Lemma app_assoc (a b c : string) : (a ++ b) ++ c = a ++ b ++ c.
Proof. induction a; simpl; congruence. Qed.

(** A hit in a text stays a hit when text is added after it. *)
Lemma contains_app_l (k s t : string) :
  contains k s = true -> contains k (s ++ t) = true.
Proof.
  rewrite !contains_iff. intros [p [q ->]].
  exists p, (q ++ t). now rewrite !app_assoc.
Qed.

(** A text with a marker has every piece of the marker. *)
Lemma contains_part (a k b s : string) :
  contains (a ++ k ++ b) s = true -> contains k s = true.
Proof.
  rewrite !contains_iff. intros [p [q ->]].
  exists (p ++ a), (b ++ q). now rewrite !app_assoc.
Qed.

Lemma lower_char_idem (c : ascii) : lower_char (lower_char c) = lower_char c.
Proof. destruct c as [[] [] [] [] [] [] [] []]; reflexivity. Qed.

Lemma lower_upper_char (c : ascii) : lower_char (upper_char c) = lower_char c.
Proof. destruct c as [[] [] [] [] [] [] [] []]; reflexivity. Qed.

(** One step of [lower]. *)
Lemma lower_cons (c : ascii) (r : string) :
  lower (String c r) =
  match special (String c r) with
  | Some (rep, rest) => rep ++ lower rest
  | None => String (lower_char c) (lower r)
  end.
Proof.
  destruct r as [|d [|e s3]]; cbn [lower special]; try reflexivity.
  - destruct (byte_is 0xC4 c && byte_is 0xB0 d); reflexivity.
  - destruct (byte_is 0xC4 c && byte_is 0xB0 d); [reflexivity|].
    destruct (byte_is 0xE2 c && byte_is 0x84 d && byte_is 0xAA e); reflexivity.
Qed.

Lemma special_shorter (s rep rest : string) :
  special s = Some (rep, rest) -> (String.length rest < String.length s)%nat.
Proof.
  destruct s as [|c [|d [|e s3]]]; cbn [special]; try discriminate.
  - destruct (byte_is 0xC4 c && byte_is 0xB0 d); [|discriminate].
    intros H; injection H as <- <-. simpl. lia.
  - destruct (byte_is 0xC4 c && byte_is 0xB0 d).
    + intros H; injection H as <- <-. simpl. lia.
    + destruct (byte_is 0xE2 c && byte_is 0x84 d && byte_is 0xAA e); [|discriminate].
      intros H; injection H as <- <-. simpl. lia.
Qed.

(** Induction along the steps of [lower]. *)
Lemma lower_ind (P : string -> Prop) :
  P "" ->
  (forall c r, special (String c r) = None -> P r -> P (String c r)) ->
  (forall c r rep rest,
     special (String c r) = Some (rep, rest) -> P rest -> P (String c r)) ->
  forall s, P s.
Proof.
  intros Hnil Hnone Hsome s.
  assert (H : forall n s, (String.length s < n)%nat -> P s).
  { clear s. induction n as [|n IH]; intros s Hs; [lia|].
    destruct s as [|c r]; [exact Hnil|].
    destruct (special (String c r)) as [[rep rest]|] eqn:Hsp.
    - apply (Hsome c r rep rest Hsp). apply IH.
      apply special_shorter in Hsp. lia.
    - apply (Hnone c r Hsp). apply IH. simpl in Hs. lia. }
  exact (H (S (String.length s)) s (Nat.lt_succ_diag_r _)).
Qed.

Lemma byte_is_eq (n : N) (c : ascii) : byte_is n c = true -> c = byte n.
Proof. apply Ascii.eqb_eq. Qed.

(** A character [lower] changes begins with a byte beyond ASCII. *)
Lemma special_head (c : ascii) (r : string) (x : string * string) :
  special (String c r) = Some x -> plain_char c = false /\ lower_char c = c.
Proof.
  destruct r as [|d [|e s3]]; cbn [special]; try discriminate.
  - destruct (byte_is 0xC4 c) eqn:Hc; cbn [andb]; [|discriminate].
    intros _. apply byte_is_eq in Hc. subst c. split; reflexivity.
  - destruct (byte_is 0xC4 c) eqn:Hc; cbn [andb].
    + intros _. apply byte_is_eq in Hc. subst c. split; reflexivity.
    + destruct (byte_is 0xE2 c) eqn:He; cbn [andb].
      * intros _. apply byte_is_eq in He. subst c. split; reflexivity.
      * destruct (byte_is 0xB0 d); discriminate.
Qed.

Lemma special_app (s t rep rest : string) :
  special s = Some (rep, rest) -> special (s ++ t) = Some (rep, rest ++ t).
Proof.
  destruct s as [|c [|d [|e s3]]]; cbn [special String.append]; try discriminate.
  - destruct (byte_is 0xC4 c && byte_is 0xB0 d); [|discriminate].
    intros H; injection H as <- <-. reflexivity.
  - destruct (byte_is 0xC4 c && byte_is 0xB0 d).
    + intros H; injection H as <- <-. reflexivity.
    + destruct (byte_is 0xE2 c && byte_is 0x84 d && byte_is 0xAA e); [|discriminate].
      intros H; injection H as <- <-. reflexivity.
Qed.

(** Added text can complete a character that was cut: what was there of it
    is one or two bytes beyond ASCII. *)
Lemma special_app_new (c : ascii) (r t : string) :
  special (String c r) = None -> special (String c (r ++ t)) <> None ->
  r = "" \/ exists d, r = String d "" /\ plain_char d = false /\ lower_char d = d.
Proof.
  destruct r as [|d [|e s3]]; [now left | | ].
  - intros Hnone Hsome. right. exists d. split; [reflexivity|].
    cbn [special String.append] in *.
    destruct (byte_is 0xC4 c && byte_is 0xB0 d); [discriminate|].
    destruct t as [|e t]; [contradiction|].
    destruct (byte_is 0x84 d) eqn:Hd.
    + apply byte_is_eq in Hd. subst d. split; reflexivity.
    + rewrite andb_false_r in Hsome. contradiction.
  - intros Hnone Hsome. exfalso. apply Hsome. cbn [special String.append] in *.
    destruct (byte_is 0xC4 c && byte_is 0xB0 d); [discriminate|].
    destruct (byte_is 0xE2 c && byte_is 0x84 d && byte_is 0xAA e);
      [discriminate | reflexivity].
Qed.

Lemma prefix_nil (k : string) : prefix k "" = true -> k = "".
Proof. destruct k; [reflexivity | discriminate]. Qed.

Lemma prefix_cons (k : string) (x : ascii) (a : string) :
  prefix k (String x a) = true ->
  k = "" \/ exists k', k = String x k' /\ prefix k' a = true.
Proof.
  destruct k as [|y k]; [now left|]. simpl.
  destruct (ascii_dec y x) as [->|]; [|discriminate].
  intros H. right. now exists k.
Qed.

Lemma prefix_same (x : ascii) (k a : string) :
  prefix k a = true -> prefix (String x k) (String x a) = true.
Proof. intros H. simpl. now destruct (ascii_dec x x). Qed.

Lemma kept_cons (x : ascii) (a b : string) :
  kept a b -> kept (String x a) (String x b).
Proof.
  intros [Hp Hc].
  assert (Hp' : forall k, plain k = true ->
            prefix k (String x a) = true -> prefix k (String x b) = true).
  { intros k Hk H. apply prefix_cons in H as [-> | [k' [-> H]]]; [reflexivity|].
    apply prefix_same. apply Hp; [|exact H].
    cbn [plain] in Hk. now apply andb_true_iff in Hk. }
  split; [exact Hp'|].
  intros k Hk Hne H. cbn [contains] in *.
  apply orb_true_iff in H as [H | H]; apply orb_true_iff.
  - left. now apply Hp'.
  - right. now apply Hc.
Qed.

Lemma kept_app (rep a b : string) : kept a b -> kept (rep ++ a) (rep ++ b).
Proof.
  intros H. induction rep as [|x rep IH]; [exact H|].
  cbn [String.append]. now apply kept_cons.
Qed.

(** No ASCII text begins with a byte beyond ASCII. *)
Lemma prefix_beyond (k : string) (c : ascii) (a : string) :
  plain k = true -> plain_char c = false ->
  prefix k (String c a) = true -> k = "".
Proof.
  intros Hk Hc H. apply prefix_cons in H as [-> | [k' [-> _]]]; [reflexivity|].
  cbn [plain] in Hk. rewrite Hc in Hk. discriminate.
Qed.

Lemma kept_cut (c : ascii) (r b : string) :
  plain_char c = false ->
  r = "" \/ (exists d, r = String d "" /\ plain_char d = false /\ lower_char d = d) ->
  kept (String c (lower r)) b.
Proof.
  intros Hc Hr. split.
  - intros k Hk H. pose proof (prefix_beyond k c _ Hk Hc H) as ->.
    now destruct b.
  - intros k Hk Hne H. exfalso. apply Hne. cbn [contains] in H.
    apply orb_true_iff in H as [H | H]; [exact (prefix_beyond k c _ Hk Hc H)|].
    destruct Hr as [-> | [d [-> [Hd Hl]]]]; cbn [lower contains] in H.
    + rewrite orb_false_r in H. now apply prefix_nil.
    + rewrite Hl, orb_false_r in H.
      apply orb_true_iff in H as [H | H];
        [exact (prefix_beyond k _ _ Hk Hd H) | now apply prefix_nil].
Qed.

(** Lower-casing a longer text keeps what lower-casing the text gave, as
    far as ASCII texts can tell. *)
Lemma lower_kept (t : string) : forall s, kept (lower s) (lower (s ++ t)).
Proof.
  apply lower_ind.
  - split.
    + intros k _ H. rewrite (prefix_nil k H). now destruct (lower ("" ++ t)).
    + intros k _ Hne H. cbn [lower contains] in H. rewrite orb_false_r in H.
      now apply prefix_nil in H.
  - intros c r Hnone IH. cbn [String.append].
    rewrite (lower_cons c r), Hnone, (lower_cons c (r ++ t)).
    destruct (special (String c (r ++ t))) as [[rep rest]|] eqn:Hsp.
    + destruct (special_head c _ _ Hsp) as [Hc Hlc]. rewrite Hlc.
      apply kept_cut; [exact Hc|].
      apply (special_app_new c r t Hnone). now rewrite Hsp.
    + now apply kept_cons.
  - intros c r rep rest Hsome IH.
    pose proof (special_app _ t _ _ Hsome) as Hsome'. cbn [String.append] in Hsome'.
    cbn [String.append]. rewrite (lower_cons c r), Hsome, (lower_cons c (r ++ t)), Hsome'.
    now apply kept_app.
Qed.

(** A hit in a text stays a hit when text is added after it. *)
Lemma contains_lower_app (k s t : string) :
  plain k = true -> k <> "" ->
  contains k (lower s) = true -> contains k (lower (s ++ t)) = true.
Proof. intros Hk Hne. now apply (proj2 (lower_kept t s)). Qed.

(** Text added where a character begins completes no character. *)
Lemma byte_is_continues (n : N) (x : ascii) :
  continues (byte n) = true -> continues x = false -> byte_is n x = false.
Proof.
  intros Hn Hx. destruct (byte_is n x) eqn:H; [|reflexivity].
  apply byte_is_eq in H. congruence.
Qed.

Lemma special_app_boundary (c x : ascii) (r t : string) :
  special (String c r) = None -> continues x = false ->
  special (String c (r ++ String x t)) = None.
Proof.
  intros Hnone Hx.
  destruct r as [|d [|e s3]]; cbn [special String.append] in *.
  - rewrite (byte_is_continues 0xB0 x eq_refl Hx),
      (byte_is_continues 0x84 x eq_refl Hx), !andb_false_r.
    now destruct t.
  - destruct (byte_is 0xC4 c && byte_is 0xB0 d); [discriminate|].
    now rewrite (byte_is_continues 0xAA x eq_refl Hx), !andb_false_r.
  - destruct (byte_is 0xC4 c && byte_is 0xB0 d); [discriminate|].
    destruct (byte_is 0xE2 c && byte_is 0x84 d && byte_is 0xAA e);
      [discriminate | reflexivity].
Qed.

Lemma lower_app_boundary (x : ascii) (t : string) :
  continues x = false ->
  forall s, lower (s ++ String x t) = lower s ++ lower (String x t).
Proof.
  intros Hx. apply lower_ind.
  - reflexivity.
  - intros c r Hnone IH. cbn [String.append].
    rewrite (lower_cons c (r ++ String x t)),
      (special_app_boundary c x r t Hnone Hx), (lower_cons c r), Hnone, IH.
    reflexivity.
  - intros c r rep rest Hsome IH.
    pose proof (special_app _ (String x t) _ _ Hsome) as Hsome'.
    cbn [String.append] in Hsome'. cbn [String.append].
    rewrite (lower_cons c (r ++ String x t)), Hsome', (lower_cons c r), Hsome, IH.
    now rewrite app_assoc.
Qed.

(** Changing the case of an ASCII letter leaves the bytes beyond ASCII. *)
Lemma upper_char_plain (a : ascii) :
  upper_char a = a \/ (plain_char a = true /\ plain_char (upper_char a) = true).
Proof. destruct a as [[] [] [] [] [] [] [] []]; vm_compute; auto. Qed.

Lemma lower_char_plain (a : ascii) :
  lower_char a = a \/ (plain_char a = true /\ plain_char (lower_char a) = true).
Proof. destruct a as [[] [] [] [] [] [] [] []]; vm_compute; auto. Qed.

Lemma byte_is_plain (n : N) (a : ascii) :
  plain_char (byte n) = false -> plain_char a = true -> byte_is n a = false.
Proof.
  intros Hn Ha. destruct (byte_is n a) eqn:H; [|reflexivity].
  apply byte_is_eq in H. congruence.
Qed.

Lemma recased_byte (n : N) (a b : ascii) :
  plain_char (byte n) = false ->
  b = a \/ b = upper_char a \/ b = lower_char a ->
  byte_is n b = byte_is n a.
Proof.
  intros Hn [-> | [-> | ->]]; [reflexivity| |].
  - destruct (upper_char_plain a) as [-> | [Ha Hu]]; [reflexivity|].
    now rewrite !byte_is_plain.
  - destruct (lower_char_plain a) as [-> | [Ha Hu]]; [reflexivity|].
    now rewrite !byte_is_plain.
Qed.

Lemma recased_special (s t : string) :
  recased s t ->
  match special s with
  | Some (rep, rest) => exists rest', special t = Some (rep, rest') /\ recased rest rest'
  | None => special t = None
  end.
Proof.
  destruct s as [|c [|d [|e s3]]]; destruct t as [|c' [|d' [|e' t3]]];
    cbn [recased special]; try tauto.
  - intros [Hc [Hd _]].
    rewrite (recased_byte 0xC4 c c' eq_refl Hc), (recased_byte 0xB0 d d' eq_refl Hd).
    destruct (byte_is 0xC4 c && byte_is 0xB0 d); [|reflexivity].
    now exists "".
  - intros [Hc [Hd [He H3]]].
    rewrite (recased_byte 0xC4 c c' eq_refl Hc), (recased_byte 0xB0 d d' eq_refl Hd),
      (recased_byte 0xE2 c c' eq_refl Hc), (recased_byte 0x84 d d' eq_refl Hd),
      (recased_byte 0xAA e e' eq_refl He).
    destruct (byte_is 0xC4 c && byte_is 0xB0 d).
    + exists (String e' t3). split; [reflexivity|]. cbn [recased]. tauto.
    + destruct (byte_is 0xE2 c && byte_is 0x84 d && byte_is 0xAA e); [|reflexivity].
      now exists t3.
Qed.

(** Changing the case of ASCII letters is lost in lower-casing. *)
Lemma recased_lower : forall s t, recased s t -> lower s = lower t.
Proof.
  apply (lower_ind (fun s => forall t, recased s t -> lower s = lower t)).
  - intros [|b t]; [reflexivity | contradiction].
  - intros c r Hnone IH [|b t] Hst; [contradiction|].
    pose proof (recased_special _ _ Hst) as Hsp. rewrite Hnone in Hsp.
    rewrite (lower_cons c r), Hnone, (lower_cons b t), Hsp.
    cbn [recased] in Hst. destruct Hst as [Hb Hrt].
    rewrite (IH t Hrt). f_equal.
    destruct Hb as [-> | [-> | ->]].
    + reflexivity.
    + symmetry. apply lower_upper_char.
    + symmetry. apply lower_char_idem.
  - intros c r rep rest Hsome IH [|b t] Hst; [contradiction|].
    pose proof (recased_special _ _ Hst) as Hsp. rewrite Hsome in Hsp.
    destruct Hsp as [rest' [Hsp Hrr]].
    rewrite (lower_cons c r), Hsome, (lower_cons b t), Hsp.
    now rewrite (IH rest' Hrr).
Qed.

End PyStrFacts.

(** ** The loop over the clusters *)

Module LoopFacts.

Lemma set_fresh {V} (d : PyDict.dict V) (k : string) (v : V) :
  ~ In k (PyDict.keys d) -> PyDict.set d k v = (d ++ [(k, v)])%list.
Proof.
  induction d as [|[k' v'] d IH]; simpl; intros Hk; [reflexivity|].
  destruct (String.eqb_spec k' k) as [->|Hne].
  - exfalso. apply Hk. now left.
  - rewrite IH; [reflexivity | tauto].
Qed.

Section Loop.
Variable lower : string.

Local Abbreviation present := (present lower).
Local Abbreviation coverage_of := (coverage_of lower).
Local Abbreviation present_of := (present_of lower).
Local Abbreviation gaps_of := (gaps_of lower).

Lemma keys_coverage_of cl : PyDict.keys (coverage_of cl) = PyDict.keys cl.
Proof.
  unfold PyDict.keys, coverage_of. rewrite map_map. reflexivity.
Qed.

Lemma fold_loop_body cl : forall st,
  NoDup (PyDict.keys (st_keyword_coverage st) ++ PyDict.keys cl) ->
  fold_left (loop_body lower) cl st =
  {| st_keyword_coverage := (st_keyword_coverage st ++ coverage_of cl)%list;
     st_present_labels := (st_present_labels st ++ present_of cl)%list;
     st_gaps := (st_gaps st ++ gaps_of cl)%list |}.
Proof.
  induction cl as [|[label kws] cl IH]; intros st Hnd.
  - simpl. rewrite !app_nil_r. now destruct st.
  - cbn [fold_left]. simpl in Hnd.
    assert (Hfresh : ~ In label (PyDict.keys (st_keyword_coverage st))).
    { apply NoDup_remove_2 in Hnd. intros Hin. apply Hnd.
      apply in_or_app. now left. }
    assert (Hnext : NoDup
              (PyDict.keys (st_keyword_coverage st ++
                 [(label, PyFloat.round2 (score_of lower kws))]) ++
               PyDict.keys cl)%list).
    { unfold PyDict.keys in *. rewrite map_app, <- app_assoc. exact Hnd. }
    change (loop_body lower st (label, kws)) with
      (if present (label, kws)
       then {| st_keyword_coverage :=
                 PyDict.set (st_keyword_coverage st) label
                   (PyFloat.round2 (score_of lower kws));
               st_present_labels := (st_present_labels st ++ [label])%list;
               st_gaps := st_gaps st |}
       else {| st_keyword_coverage :=
                 PyDict.set (st_keyword_coverage st) label
                   (PyFloat.round2 (score_of lower kws));
               st_present_labels := st_present_labels st;
               st_gaps := (st_gaps st ++ [gap_message label])%list |}).
    unfold present_of, gaps_of. cbn [filter coverage_of map].
    fold (coverage_of cl).
    rewrite set_fresh by assumption.
    destruct (present (label, kws)); cbn [negb map fst snd];
      rewrite IH by exact Hnext;
      cbn [st_keyword_coverage st_present_labels st_gaps];
      rewrite <- ?app_assoc; reflexivity.
Qed.

Lemma run_loop_eq :
  run_loop lower =
  {| st_keyword_coverage := coverage_of clusters;
     st_present_labels := present_of clusters;
     st_gaps := gaps_of clusters |}.
Proof.
  unfold run_loop. rewrite fold_loop_body; [reflexivity|].
  cbn. repeat constructor; cbn; intuition discriminate.
Qed.

End Loop.

Lemma hits_range (lower : string) (kws : list string) :
  0 <= hits lower kws <= Z.of_nat (List.length kws).
Proof.
  unfold hits. pose proof (filter_length_le (fun k => PyStr.contains k lower) kws).
  lia.
Qed.

End LoopFacts.

(** ** The sums the loop can reach *)

Module ReachFacts.

Lemma float_same_eq (a b : PyFloat.float) : float_same a b = true -> a = b.
Proof.
  destruct a as [s|s| |s m e], b as [t|t| |t n f]; simpl; try discriminate.
  - intros H. apply Bool.eqb_prop in H. congruence.
  - intros H. apply Bool.eqb_prop in H. congruence.
  - rewrite !andb_true_iff. intros [[Hs Hm] He].
    apply Bool.eqb_prop in Hs. apply Pos.eqb_eq in Hm. apply Z.eqb_eq in He.
    congruence.
Qed.

Lemma entry_same_eq (p q : entry) : entry_same p q = true -> p = q.
Proof.
  destruct p as [T f], q as [U g]. unfold entry_same. simpl.
  rewrite andb_true_iff. intros [HT Hf].
  apply Z.eqb_eq in HT. apply float_same_eq in Hf. congruence.
Qed.

Lemma acc_same_eq (a b : PyFloat.acc) : acc_same a b = true -> a = b.
Proof.
  destruct a as [f c], b as [g d]. unfold acc_same. simpl.
  rewrite andb_true_iff. intros [Hf Hc].
  apply float_same_eq in Hf. apply float_same_eq in Hc. congruence.
Qed.

Lemma state_same_eq (p q : state) : state_same p q = true -> p = q.
Proof.
  destruct p as [T a], q as [U b]. unfold state_same. simpl.
  rewrite andb_true_iff. intros [HT Ha].
  apply Z.eqb_eq in HT. apply acc_same_eq in Ha. congruence.
Qed.

Lemma dedup_In {A} (same : A -> A -> bool) (x : A) (l : list A) :
  (forall y z, same y z = true -> y = z) ->
  In x l -> In x (dedup same l).
Proof.
  intros Hsound. induction l as [|y l IH]; simpl; [tauto|].
  intros [->|Hin].
  - destruct (existsb (same x) (dedup same l)) eqn:Hex; [|now left].
    apply existsb_exists in Hex as [z [Hz Hsame]].
    apply Hsound in Hsame. now subst.
  - destruct (existsb (same y) (dedup same l)); [|right]; now apply IH.
Qed.

Lemma bucket_insert_held (m : buckets) (p x : state) :
  held m x -> held (bucket_insert m p) x.
Proof.
  intros [b [Hb Hx]]. unfold bucket_insert, held.
  destruct (PositiveMap.find (key (fst p)) m) as [c|] eqn:Hc.
  - destruct (existsb (state_same p) c); [now exists b|].
    destruct (Pos.eq_dec (key (fst x)) (key (fst p))) as [He | Hne].
    + rewrite He, PositiveMap.gss. exists (p :: c). split; [reflexivity|].
      right. rewrite He, Hc in Hb. now injection Hb as ->.
    + rewrite PositiveMap.gso by assumption. now exists b.
  - destruct (Pos.eq_dec (key (fst x)) (key (fst p))) as [He | Hne].
    + rewrite He, Hc in Hb. discriminate.
    + rewrite PositiveMap.gso by assumption. now exists b.
Qed.

Lemma bucket_insert_new (m : buckets) (p : state) : held (bucket_insert m p) p.
Proof.
  unfold bucket_insert, held.
  destruct (PositiveMap.find (key (fst p)) m) as [c|] eqn:Hc.
  - destruct (existsb (state_same p) c) eqn:Hex.
    + apply existsb_exists in Hex as [z [Hz Hsame]].
      apply state_same_eq in Hsame. subst z. now exists c.
    + rewrite PositiveMap.gss. exists (p :: c). split; [reflexivity | now left].
  - rewrite PositiveMap.gss. exists [p]. split; [reflexivity | now left].
Qed.

Lemma fold_insert_held (l : list state) : forall (m : buckets) (x : state),
  held m x \/ In x l -> held (fold_left bucket_insert l m) x.
Proof.
  induction l as [|p l IH]; intros m x [Hm | Hin]; simpl.
  - assumption.
  - contradiction.
  - apply IH. left. now apply bucket_insert_held.
  - apply IH. destruct Hin as [-> | Hin]; [left; apply bucket_insert_new | now right].
Qed.

Lemma dedup_states_In (x : state) (l : list state) :
  In x l -> In x (dedup_states l).
Proof.
  intros Hin. unfold dedup_states.
  destruct (fold_insert_held l (PositiveMap.empty (list state)) x (or_intror Hin))
    as [b [Hb Hx]].
  apply in_flat_map. exists (key (fst x), b). split; [|exact Hx].
  now apply PositiveMap.elements_correct.
Qed.

Lemma stage_In how (V : list Z) (R : list state) (T : Z) (a : PyFloat.acc) (v : Z) :
  In (T, a) R -> In v V ->
  In (T + v, PyFloat.sum_step how a (PyFloat.dec2 v)) (stage how V R).
Proof.
  intros HR HV. unfold stage. apply dedup_states_In.
  apply in_flat_map. exists (T, a). split; [assumption|].
  apply in_map_iff. exists v. split; [reflexivity | assumption].
Qed.

Lemma stages_In how (lens : list nat) : forall (ws : list Z) (R : list state) T a,
  Forall2 (fun w len => In w (steps len)) ws lens ->
  In (T, a) R ->
  In (fold_left Z.add ws T,
      fold_left (PyFloat.sum_step how) (map PyFloat.dec2 ws) a)
     (stages how lens R).
Proof.
  induction lens as [|len lens IH]; intros ws R T a Hws HR;
    inversion Hws as [|w len' ws' lens' Hw Hws']; subst; simpl.
  - assumption.
  - apply IH; [assumption|]. now apply stage_In.
Qed.

Lemma reach_eq how : reach how = stages how cluster_sizes start.
Proof. destruct how; vm_compute; reflexivity. Qed.

Lemma means_eq how : means how = means_of (reach how).
Proof. destruct how; vm_compute; reflexivity. Qed.

(** Without compensation [sum] is the left-to-right sum. *)
Lemma sum_plain (xs : list PyFloat.float) :
  PyFloat.sum PyFloat.Plain xs = fold_left PyFloat.add xs PyFloat.zero.
Proof.
  unfold PyFloat.sum.
  assert (H : forall f, fold_left (PyFloat.sum_step PyFloat.Plain) xs (f, PyFloat.zero) =
                        (fold_left PyFloat.add xs f, PyFloat.zero)).
  { induction xs as [|x xs IH]; intros f; simpl; [reflexivity | apply IH]. }
  rewrite H. reflexivity.
Qed.

Lemma upto_In (h : Z) (n : nat) : 0 <= h <= Z.of_nat n -> In h (upto n).
Proof.
  intros Hh. unfold upto. apply in_map_iff. exists (Z.to_nat h). split; [lia|].
  apply in_seq. lia.
Qed.

Lemma hundredths_in_steps (h : Z) (len : nat) :
  0 <= h <= Z.of_nat len -> In (hundredths h (Z.of_nat len)) (steps len).
Proof.
  intros Hh. unfold steps.
  apply (in_map (fun h => hundredths h (Z.of_nat len))). now apply upto_In.
Qed.

(** A property checked on every number up to [n] holds of each. *)
Lemma upto_forallb (P : Z -> bool) (n : nat) (h : Z) :
  forallb P (upto n) = true -> 0 <= h <= Z.of_nat n -> P h = true.
Proof.
  intros Hall Hh. rewrite forallb_forall in Hall. apply Hall. now apply upto_In.
Qed.

(** [round(h / len, 2)] is the double nearest to its hundredths. *)
Lemma round2_truediv (len : nat) (h : Z) :
  (len = 5 \/ len = 6)%nat -> 0 <= h <= Z.of_nat len ->
  PyFloat.round2 (PyFloat.truediv h (Z.max (Z.of_nat len) 1)) =
  PyFloat.dec2 (hundredths h (Z.of_nat len)).
Proof.
  intros Hlen Hh. apply float_same_eq.
  apply (upto_forallb
           (fun h => float_same
                       (PyFloat.round2 (PyFloat.truediv h (Z.max (Z.of_nat len) 1)))
                       (PyFloat.dec2 (hundredths h (Z.of_nat len)))) len);
    [|assumption].
  destruct Hlen as [-> | ->]; vm_compute; reflexivity.
Qed.

Lemma cluster_lengths :
  Forall (fun item : string * list string =>
            (List.length (snd item) = 5 \/ List.length (snd item) = 6)%nat)
    clusters.
Proof.
  unfold clusters. repeat (apply Forall_cons; [simpl; auto|]). apply Forall_nil.
Qed.

End ReachFacts.

(** ** The scorer *)

Module ScorerFacts.
Import LoopFacts ReachFacts.

Lemma lowered_lower (text : string) : lowered text = PyStr.lower text.
Proof. now destruct text. Qed.

(** The report is a function of the loop's three lists. *)
Lemma analyze_locals_run how (s t : string) :
  run_loop (lowered s) = run_loop (lowered t) ->
  analyze_locals how s = analyze_locals how t.
Proof. unfold analyze_locals. intros ->. reflexivity. Qed.

Lemma fold_left_ext_in {A B} (f g : A -> B -> A) (l : list B) :
  (forall a b, In b l -> f a b = g a b) ->
  forall a, fold_left f l a = fold_left g l a.
Proof.
  induction l as [|b l IH]; intros Hfg a; simpl; [reflexivity|].
  rewrite Hfg by now left. apply IH. intros a' b' Hb'. apply Hfg. now right.
Qed.

(** The loop sees the text only through which markers occur in it. *)
Lemma run_loop_ext (l1 l2 : string) :
  (forall label kws k, In (label, kws) clusters -> In k kws ->
     PyStr.contains k l1 = PyStr.contains k l2) ->
  run_loop l1 = run_loop l2.
Proof.
  intros Hsame. unfold run_loop. apply fold_left_ext_in.
  intros st [label kws] Hin. unfold loop_body, score_of, hits.
  rewrite (filter_ext_in (fun k => PyStr.contains k l1)
             (fun k => PyStr.contains k l2) kws); [reflexivity|].
  intros k Hk. now apply (Hsame label kws).
Qed.

Lemma l_keyword_coverage_eq how (text : string) :
  l_keyword_coverage (analyze_locals how text) = coverage_of (lowered text) clusters.
Proof. unfold analyze_locals, after_loop. cbn [l_keyword_coverage]. now rewrite run_loop_eq. Qed.

Lemma l_present_labels_eq how (text : string) :
  l_present_labels (analyze_locals how text) = present_of (lowered text) clusters.
Proof. unfold analyze_locals, after_loop. cbn [l_present_labels]. now rewrite run_loop_eq. Qed.

Lemma l_gaps_eq how (text : string) :
  l_gaps (analyze_locals how text) = gaps_of (lowered text) clusters.
Proof. unfold analyze_locals, after_loop. cbn [l_gaps]. now rewrite run_loop_eq. Qed.

Lemma round2_score_of (lower : string) (item : string * list string) :
  In item clusters ->
  PyFloat.round2 (score_of lower (snd item)) =
  PyFloat.dec2 (hundredths (hits lower (snd item)) (Z.of_nat (List.length (snd item)))).
Proof.
  intros Hin. unfold score_of. apply round2_truediv.
  - pose proof cluster_lengths as Hall. rewrite Forall_forall in Hall.
    now apply Hall.
  - apply hits_range.
Qed.

Lemma values_coverage_of (lower : string) :
  PyDict.values (coverage_of lower clusters) =
  map PyFloat.dec2 (hundredths_of lower).
Proof.
  unfold PyDict.values, coverage_of, hundredths_of. rewrite !map_map.
  apply map_ext_in. intros item Hin. cbn [snd]. now apply round2_score_of.
Qed.

Lemma hundredths_of_steps (lower : string) :
  Forall2 (fun w len => In w (steps len)) (hundredths_of lower) cluster_sizes.
Proof.
  unfold hundredths_of, cluster_sizes.
  induction clusters as [|item cl IH]; simpl; constructor; [|exact IH].
  apply hundredths_in_steps. apply hits_range.
Qed.

Lemma l_coverage_score_eq how (text : string) :
  l_coverage_score (analyze_locals how text) =
  mean_of (PyFloat.sum how (map PyFloat.dec2 (hundredths_of (lowered text)))).
Proof.
  unfold analyze_locals, after_loop. cbn [l_coverage_score]. rewrite run_loop_eq.
  cbn [st_keyword_coverage]. rewrite values_coverage_of.
  unfold coverage_of. rewrite length_map.
  change (Z.max (Z.of_nat (List.length clusters)) 1) with 6.
  unfold mean_of. reflexivity.
Qed.

(** The overall score, with its exact total, is one of the tabulated means. *)
Lemma score_in_means how (text : string) :
  In (total (hundredths_of (lowered text)),
      l_coverage_score (analyze_locals how text))
     (means how).
Proof.
  rewrite l_coverage_score_eq, means_eq. unfold means_of.
  apply dedup_In; [exact entry_same_eq|].
  apply in_map_iff.
  exists (total (hundredths_of (lowered text)),
          fold_left (PyFloat.sum_step how)
            (map PyFloat.dec2 (hundredths_of (lowered text)))
            (PyFloat.zero, PyFloat.zero)).
  split; [cbn [fst snd]; unfold PyFloat.sum; reflexivity|].
  rewrite reach_eq. unfold total.
  apply (stages_In how cluster_sizes (hundredths_of (lowered text))
           start 0 (PyFloat.zero, PyFloat.zero)).
  - apply hundredths_of_steps.
  - now left.
Qed.

Lemma steps_in_unit (len : nat) (w : Z) :
  (len = 5 \/ len = 6)%nat -> In w (steps len) ->
  in_unit (PyFloat.dec2 w) = true.
Proof.
  intros Hlen Hw.
  assert (Hall : forallb (fun w => in_unit (PyFloat.dec2 w)) (steps len) = true)
    by (destruct Hlen as [-> | ->]; vm_compute; reflexivity).
  rewrite forallb_forall in Hall. now apply Hall.
Qed.

Lemma means_in_unit how :
  forallb (fun p : entry => in_unit (snd p)) (means how) = true.
Proof. destruct how; vm_compute; reflexivity. Qed.

Lemma forallb_entry (P : PyFloat.float -> bool) (l : list entry) T x :
  forallb (fun p : entry => P (snd p)) l = true -> In (T, x) l -> P x = true.
Proof.
  intros Hall Hin. rewrite forallb_forall in Hall. exact (Hall _ Hin).
Qed.

Lemma score_in_unit how (text : string) :
  in_unit (l_coverage_score (analyze_locals how text)) = true.
Proof.
  exact (forallb_entry in_unit (means how) _ _ (means_in_unit how)
           (score_in_means how text)).
Qed.

Lemma fractions_in_unit how (text : string) :
  Forall (fun kv => in_unit (snd kv) = true)
    (l_keyword_coverage (analyze_locals how text)).
Proof.
  rewrite l_keyword_coverage_eq. unfold coverage_of.
  apply Forall_forall. intros kv Hkv.
  apply in_map_iff in Hkv as [item [<- Hitem]]. cbn [snd].
  rewrite round2_score_of by assumption.
  pose proof cluster_lengths as Hall. rewrite Forall_forall in Hall.
  apply (steps_in_unit (List.length (snd item))); [now apply Hall|].
  apply hundredths_in_steps. apply hits_range.
Qed.

End ScorerFacts.

(** ** The claims *)

Import LoopFacts ReachFacts ScorerFacts.

(** C4. For every input text, the empty one included, every fraction in
    [keyword_coverage] lies in [0, 1], and so does [coverage_score]. *)
Theorem C4_fractions_and_score_in_unit_interval
    (how : PyFloat.summation) (text : string) :
  Forall (fun kv => in_unit (snd kv) = true)
    (keyword_coverage (analyze_text how text)) /\
  in_unit (coverage_score (analyze_text how text)) = true.
Proof.
  split.
  - exact (fractions_in_unit how text).
  - exact (score_in_unit how text).
Qed.

(** C5. Scoring the empty string: the six fractions, of privacy, security,
    governance, retention, training and vendor, are 0, the score is 0, the
    gap strings of all six clusters are in [gaps], the tier is the
    work-in-progress one and the highlights read "none yet". *)
Theorem C5_empty_text (how : PyFloat.summation) :
  analyze_text how "" =
  {| coverage_score := S754_zero false;
     keyword_coverage :=
       [ ("privacy", S754_zero false); ("security", S754_zero false);
         ("governance", S754_zero false); ("retention", S754_zero false);
         ("training", S754_zero false); ("vendor", S754_zero false) ];
     gaps :=
       [ "Missing any mention of privacy controls";
         "Missing any mention of security controls";
         "Missing any mention of governance controls";
         "Missing any mention of retention controls";
         "Missing any mention of training controls";
         "Missing any mention of vendor controls" ];
     summary :=
       "Your compliance groove is a work-in-progress — let's add some shiny controls. Highlights: none yet" |} /\
  l_vibe (analyze_locals how "") =
    "a work-in-progress — let's add some shiny controls." /\
  l_present_labels (analyze_locals how "") = [].
Proof. destruct how; vm_compute; repeat split; reflexivity. Qed.

(** C7, as stated, fails: [str.lower] knows the letters beyond ASCII, and
    the case of one of them can be changed to an ASCII letter.  The word
    privacy written with a dotless i, U+0131, has no marker; upper-cased it
    is PRIVACY, which has one: the privacy fraction goes from 0 to 0.17, the
    score from 0 to 0.03, and privacy leaves the gaps. *)
Lemma C7_counterexample :
  upper dotless_privacy = Some "PRIVACY" /\
  fraction (analyze_text PyFloat.Plain dotless_privacy) "privacy" = PyFloat.zero /\
  fraction (analyze_text PyFloat.Plain "PRIVACY") "privacy" = PyFloat.dec2 17 /\
  coverage_score (analyze_text PyFloat.Plain dotless_privacy) = PyFloat.zero /\
  coverage_score (analyze_text PyFloat.Plain "PRIVACY") = PyFloat.dec2 3 /\
  In "Missing any mention of privacy controls"
    (gaps (analyze_text PyFloat.Plain dotless_privacy)) /\
  ~ In "Missing any mention of privacy controls"
      (gaps (analyze_text PyFloat.Plain "PRIVACY")) /\
  (forall how,
     analyze_text how dotless_privacy <> analyze_text how "PRIVACY").
Proof.
  split; [reflexivity|].
  split; [vm_compute; reflexivity|].
  split; [vm_compute; reflexivity|].
  split; [vm_compute; reflexivity|].
  split; [vm_compute; reflexivity|].
  split; [vm_compute; auto|].
  split.
  - vm_compute. intuition discriminate.
  - intros how H. apply (f_equal gaps) in H.
    destruct how; vm_compute in H; discriminate.
Qed.

(** C7, amended. Scoring does not tell the case of the ASCII letters:
    changing the case of any of the letters A to Z and a to z of the text,
    as from GDPR to gdpr, leaves the whole report as it is, fractions,
    score, gaps and summary. *)
Theorem C7_case_insensitive (how : PyFloat.summation) (s t : string) :
  recased s t -> analyze_text how s = analyze_text how t.
Proof.
  intros Hst. unfold analyze_text.
  rewrite (analyze_locals_run how s t); [reflexivity|].
  rewrite !lowered_lower. now rewrite (PyStrFacts.recased_lower s t Hst).
Qed.

Lemma C7_case_insensitive_witness :
  recased "GDPR and Consent" "gdpr AND consent" /\
  analyze_text PyFloat.Plain "GDPR and Consent" =
  analyze_text PyFloat.Plain "gdpr AND consent".
Proof.
  assert (H : recased "GDPR and Consent" "gdpr AND consent")
    by (vm_compute; repeat split; auto).
  split; [exact H | exact (C7_case_insensitive PyFloat.Plain _ _ H)].
Defined.

Lemma every_marker_hits :
  forallb (fun k => PyStr.contains k (lowered every_marker)) markers = true.
Proof. vm_compute. reflexivity. Qed.

Lemma in_markers (label : string) (kws : list string) (k : string) :
  In (label, kws) clusters -> In k kws -> In k markers.
Proof.
  intros Hc Hk. unfold markers. apply in_flat_map. now exists (label, kws).
Qed.

(** C6. A text whose lower-cased form has every marker of every cluster:
    all six fractions are 1.0, the score is 1.0 and the summary is the
    rock-solid one. *)
Theorem C6_every_marker (how : PyFloat.summation) (text : string) :
  has_all text markers ->
  keyword_coverage (analyze_text how text) =
    map (fun label => (label, PyFloat.one)) labels /\
  coverage_score (analyze_text how text) = PyFloat.one /\
  l_vibe (analyze_locals how text) = vibe_rock_solid /\
  summary (analyze_text how text) =
    "Your compliance groove is " ++ vibe_rock_solid ++
    " Highlights: privacy, security, governance, retention, training, vendor".
Proof.
  intros Hall. unfold analyze_text.
  cbn [keyword_coverage coverage_score summary].
  rewrite (analyze_locals_run how text every_marker).
  - destruct how; vm_compute; repeat split; reflexivity.
  - apply run_loop_ext. intros label kws k Hc Hk.
    pose proof (in_markers label kws k Hc Hk) as Hm.
    rewrite lowered_lower at 1. rewrite (Hall k Hm).
    pose proof every_marker_hits as Hev. rewrite forallb_forall in Hev.
    symmetry. exact (Hev k Hm).
Qed.

Lemma C6_every_marker_witness :
  has_all every_marker markers /\
  coverage_score (analyze_text PyFloat.Plain every_marker) = PyFloat.one.
Proof.
  assert (H : has_all every_marker markers).
  { intros k Hk. pose proof every_marker_hits as Hev.
    rewrite forallb_forall in Hev. rewrite <- lowered_lower. exact (Hev k Hk). }
  split; [exact H|].
  exact (proj1 (proj2 (C6_every_marker PyFloat.Plain every_marker H))).
Defined.

(** A text with "access control" has the governance marker "control". *)
Lemma access_control_has_control (text : string) :
  PyStr.contains "access control" (PyStr.lower text) = true ->
  PyStr.contains "control" (PyStr.lower text) = true.
Proof. apply (PyStrFacts.contains_part "access " "control" ""). Qed.

(** C2, as stated, fails: no text meets its premise, and on the text made
    of the two markers the governance fraction is 0.17, not 0, the score
    is 0.08, not 0.06, and governance is not among the gaps. *)
Lemma C2_counterexample :
  (forall text, ~ two_security_markers_alone text) /\
  has_all "encryption access control" ["encryption"; "access control"] /\
  fraction (analyze_text PyFloat.Plain "encryption access control") "governance"
    = PyFloat.dec2 17 /\
  coverage_score (analyze_text PyFloat.Plain "encryption access control")
    = PyFloat.dec2 8 /\
  ~ two_security_markers_expected
      (analyze_text PyFloat.Plain "encryption access control") /\
  ~ two_security_markers_expected
      (analyze_text PyFloat.Compensated "encryption access control").
Proof.
  split; [|split; [|split; [|split; [|split]]]].
  - intros text [Hboth Hnone].
    assert (Hac : PyStr.contains "access control" (PyStr.lower text) = true)
      by (apply Hboth; simpl; auto).
    apply access_control_has_control in Hac.
    rewrite (Hnone "governance"
               ["risk"; "policy"; "procedure"; "audit"; "control"; "evidence"]
               "control") in Hac.
    + discriminate.
    + unfold clusters. simpl. auto.
    + discriminate.
    + simpl. auto 10.
  - intros k [<- | [<- | []]]; vm_compute; reflexivity.
  - vm_compute. reflexivity.
  - vm_compute. reflexivity.
  - intros [_ [_ [Hscore _]]]. vm_compute in Hscore. discriminate.
  - intros [_ [_ [Hscore _]]]. vm_compute in Hscore. discriminate.
Qed.

(** C2, amended. A text whose lower-cased form has "encryption" and
    "access control", hence "control", and no other marker: security is
    0.33, governance 0.17, the other four fractions 0, the score 0.08, and
    the gaps are those of privacy, retention, training and vendor. *)
Theorem C2_two_security_markers (how : PyFloat.summation) (text : string) :
  two_security_markers_and_control text ->
  keyword_coverage (analyze_text how text) =
    [ ("privacy", PyFloat.zero); ("security", PyFloat.dec2 33);
      ("governance", PyFloat.dec2 17); ("retention", PyFloat.zero);
      ("training", PyFloat.zero); ("vendor", PyFloat.zero) ] /\
  coverage_score (analyze_text how text) = PyFloat.dec2 8 /\
  gaps (analyze_text how text) =
    map gap_message ["privacy"; "retention"; "training"; "vendor"].
Proof.
  intros [Hboth Hnone]. unfold analyze_text.
  cbn [keyword_coverage coverage_score gaps].
  rewrite (analyze_locals_run how text "encryption access control").
  - destruct how; vm_compute; repeat split; reflexivity.
  - apply run_loop_ext. intros label kws k Hc Hk.
    pose proof (in_markers label kws k Hc Hk) as Hm.
    rewrite lowered_lower at 1.
    assert (Henc : PyStr.contains "encryption" (PyStr.lower text) = true)
      by (apply Hboth; simpl; auto).
    assert (Hac : PyStr.contains "access control" (PyStr.lower text) = true)
      by (apply Hboth; simpl; auto).
    pose proof (access_control_has_control text Hac) as Hctl.
    destruct (String.eqb_spec k "encryption") as [-> | Hne1];
      [rewrite Henc; vm_compute; reflexivity|].
    destruct (String.eqb_spec k "access control") as [-> | Hne2];
      [rewrite Hac; vm_compute; reflexivity|].
    destruct (String.eqb_spec k "control") as [-> | Hne3];
      [rewrite Hctl; vm_compute; reflexivity|].
    rewrite (Hnone k Hm Hne1 Hne2 Hne3).
    unfold markers, clusters in Hm. simpl in Hm.
    repeat (destruct Hm as [<- | Hm]; [try (vm_compute; reflexivity); congruence|]).
    contradiction.
Qed.

Lemma C2_two_security_markers_witness :
  two_security_markers_and_control "Encryption and Access Control" /\
  coverage_score (analyze_text PyFloat.Plain "Encryption and Access Control")
    = PyFloat.dec2 8.
Proof.
  assert (H : two_security_markers_and_control "Encryption and Access Control").
  { split.
    - intros k [<- | [<- | []]]; vm_compute; reflexivity.
    - intros k Hm Hne1 Hne2 Hne3. unfold markers, clusters in Hm. simpl in Hm.
      repeat (destruct Hm as [<- | Hm]; [try (vm_compute; reflexivity); congruence|]).
      contradiction. }
  split; [exact H|].
  exact (proj1 (proj2 (C2_two_security_markers PyFloat.Plain _ H))).
Defined.

(** ** Appending text *)

Module ExtensionFacts.

Lemma filter_length_mono {A} (f g : A -> bool) (l : list A) :
  (forall x, In x l -> f x = true -> g x = true) ->
  (List.length (filter f l) <= List.length (filter g l))%nat.
Proof.
  induction l as [|x l IH]; intros Hfg; simpl; [lia|].
  assert (IH' : (List.length (filter f l) <= List.length (filter g l))%nat)
    by (apply IH; intros y Hy; apply Hfg; now right).
  destruct (f x) eqn:Hfx.
  - rewrite (Hfg x (or_introl eq_refl) Hfx). simpl. lia.
  - destruct (g x); simpl; lia.
Qed.

(** The markers are ASCII texts, none of them empty. *)
Lemma markers_plain :
  forallb (fun k => plain k && negb (String.eqb k "")) markers = true.
Proof. vm_compute. reflexivity. Qed.

Lemma hits_app (s t : string) (item : string * list string) :
  In item clusters ->
  hits (lowered s) (snd item) <= hits (lowered (s ++ t)) (snd item).
Proof.
  intros Hin. unfold hits. apply inj_le. apply filter_length_mono.
  intros k Hk. rewrite !lowered_lower.
  pose proof markers_plain as Hall. rewrite forallb_forall in Hall.
  assert (Hm : In k markers) by (apply in_flat_map; now exists item).
  specialize (Hall k Hm). apply andb_true_iff in Hall as [Hp Hne].
  apply PyStrFacts.contains_lower_app; [exact Hp|].
  intros ->. discriminate.
Qed.

Lemma steps_monotone (len : nat) (h h' : Z) :
  (len = 5 \/ len = 6)%nat -> 0 <= h -> h <= h' -> h' <= Z.of_nat len ->
  hundredths h (Z.of_nat len) <= hundredths h' (Z.of_nat len) /\
  PyFloat.leb (PyFloat.dec2 (hundredths h (Z.of_nat len)))
              (PyFloat.dec2 (hundredths h' (Z.of_nat len))) = true.
Proof.
  intros Hlen H0 Hle Hmax.
  assert (Hall : forallb (fun a => forallb (step_monotone len a) (upto len))
                   (upto len) = true)
    by (destruct Hlen as [-> | ->]; vm_compute; reflexivity).
  assert (Hh : forallb (step_monotone len h) (upto len) = true)
    by (apply (upto_forallb (fun a => forallb (step_monotone len a) (upto len)) len h Hall); lia).
  assert (Hstep : step_monotone len h h' = true)
    by (apply (upto_forallb (step_monotone len h) len h' Hh); lia).
  unfold step_monotone in Hstep.
  assert (Hb : (h <=? h') = true) by (apply Z.leb_le; exact Hle).
  rewrite Hb in Hstep. cbn [implb] in Hstep.
  apply andb_true_iff in Hstep as [Hz Hf]. apply Z.leb_le in Hz. now split.
Qed.

Lemma fold_add_shift (ws : list Z) (a : Z) :
  fold_left Z.add ws a = a + fold_left Z.add ws 0.
Proof.
  revert a; induction ws as [|w ws IH]; intros a; simpl; [lia|].
  rewrite (IH (a + w)), (IH w). lia.
Qed.

Lemma total_cons (w : Z) (ws : list Z) : total (w :: ws) = w + total ws.
Proof. unfold total. simpl. apply fold_add_shift. Qed.

Lemma total_monotone (ws ws' : list Z) :
  Forall2 Z.le ws ws' ->
  total ws <= total ws' /\ (total ws = total ws' -> ws = ws').
Proof.
  induction 1 as [|w w' ws ws' Hw Hws [IHle IHeq]].
  - split; [reflexivity | reflexivity].
  - rewrite !total_cons. split; [lia|].
    intros Heq. assert (w = w') by lia. subst w'.
    f_equal. apply IHeq. lia.
Qed.

Lemma Forall2_map_same {A B C} (R : B -> C -> Prop) (f : A -> B) (g : A -> C)
    (l : list A) :
  (forall x, In x l -> R (f x) (g x)) -> Forall2 R (map f l) (map g l).
Proof.
  induction l as [|x l IH]; intros H; simpl; constructor.
  - apply H. now left.
  - apply IH. intros y Hy. apply H. now right.
Qed.

Lemma item_length (item : string * list string) :
  In item clusters ->
  (List.length (snd item) = 5 \/ List.length (snd item) = 6)%nat.
Proof.
  pose proof cluster_lengths as Hall. rewrite Forall_forall in Hall. apply Hall.
Qed.

Lemma hundredths_of_app (s t : string) :
  Forall2 Z.le (hundredths_of (lowered s)) (hundredths_of (lowered (s ++ t))).
Proof.
  unfold hundredths_of. apply Forall2_map_same. intros item Hin.
  apply steps_monotone.
  - now apply item_length.
  - apply hits_range.
  - now apply hits_app.
  - apply hits_range.
Qed.

Lemma means_are_monotone how : means_monotone (means how) = true.
Proof. destruct how; vm_compute; reflexivity. Qed.

Lemma means_ordered how (T T' : Z) (x x' : PyFloat.float) :
  In (T, x) (means how) -> In (T', x') (means how) ->
  PyFloat.leb x x = true /\ (T < T' -> PyFloat.leb x x' = true).
Proof.
  intros Hp Hq. pose proof (means_are_monotone how) as Hall.
  unfold means_monotone in Hall. rewrite forallb_forall in Hall.
  specialize (Hall (T, x) Hp). cbn [fst snd] in Hall.
  apply andb_true_iff in Hall as [Hrefl Hrow].
  split; [exact Hrefl|]. intros Hlt.
  rewrite forallb_forall in Hrow. specialize (Hrow (T', x') Hq).
  cbn [fst snd] in Hrow.
  apply Z.ltb_lt in Hlt. rewrite Hlt in Hrow. exact Hrow.
Qed.

(** The score does not fall when text is added. *)
Lemma score_app how (s t : string) :
  PyFloat.leb (l_coverage_score (analyze_locals how s))
              (l_coverage_score (analyze_locals how (s ++ t))) = true.
Proof.
  destruct (means_ordered how _ _ _ _ (score_in_means how s)
              (score_in_means how (s ++ t)))
    as [Hrefl Hlt].
  destruct (total_monotone _ _ (hundredths_of_app s t)) as [Hle Heq].
  destruct (Z.eq_dec (total (hundredths_of (lowered s)))
                     (total (hundredths_of (lowered (s ++ t))))) as [He | Hne].
  - rewrite (l_coverage_score_eq how (s ++ t)), <- (Heq He),
      <- (l_coverage_score_eq how s).
    exact Hrefl.
  - apply Hlt. lia.
Qed.

(** No fraction falls when text is added. *)
Lemma fractions_app how (s t : string) :
  Forall2 (fun kv kv' => fst kv = fst kv' /\ PyFloat.leb (snd kv) (snd kv') = true)
    (l_keyword_coverage (analyze_locals how s))
    (l_keyword_coverage (analyze_locals how (s ++ t))).
Proof.
  rewrite !l_keyword_coverage_eq. unfold coverage_of.
  apply Forall2_map_same. intros item Hin. cbn [fst snd].
  split; [reflexivity|].
  rewrite !round2_score_of by assumption.
  apply steps_monotone.
  - now apply item_length.
  - apply hits_range.
  - now apply hits_app.
  - apply hits_range.
Qed.

End ExtensionFacts.

Import ExtensionFacts.

(** C9. Coverage is monotone under text extension: for all texts [s] and
    [t], every fraction and the score of [s ++ t] are at least those of [s]. *)
Theorem C9_monotone_under_extension (how : PyFloat.summation) (s t : string) :
  Forall2 (fun kv kv' => fst kv = fst kv' /\ PyFloat.leb (snd kv) (snd kv') = true)
    (keyword_coverage (analyze_text how s))
    (keyword_coverage (analyze_text how (s ++ t))) /\
  PyFloat.leb (coverage_score (analyze_text how s))
              (coverage_score (analyze_text how (s ++ t))) = true.
Proof.
  split.
  - exact (fractions_app how s t).
  - exact (score_app how s t).
Qed.

(** ** Highlights and gaps *)

Module PartitionFacts.

Lemma get_coverage_of (lower : string) (cl : PyDict.dict (list string))
    (item : string * list string) :
  NoDup (PyDict.keys cl) -> In item cl ->
  PyDict.get (coverage_of lower cl) (fst item) PyFloat.zero =
  PyFloat.round2 (score_of lower (snd item)).
Proof.
  induction cl as [|[label kws] cl IH]; intros Hnd Hin; [contradiction|].
  unfold coverage_of. cbn [map PyDict.get fst snd]. fold (coverage_of lower cl).
  simpl in Hnd. apply NoDup_cons_iff in Hnd as [Hfresh Hnd].
  destruct Hin as [<- | Hin].
  - cbn [fst snd]. now rewrite String.eqb_refl.
  - destruct (String.eqb_spec label (fst item)) as [-> | Hne].
    + exfalso. apply Hfresh. unfold PyDict.keys. now apply in_map.
    + now apply IH.
Qed.

Lemma filter_map_fst {A B} (P : A -> bool) (l : list (A * B)) :
  filter P (map fst l) = map fst (filter (fun item => P (fst item)) l).
Proof.
  induction l as [|x l IH]; simpl; [reflexivity|].
  destruct (P (fst x)); simpl; now rewrite IH.
Qed.

Lemma clusters_NoDup : NoDup (PyDict.keys clusters).
Proof. cbn. repeat constructor; cbn; intuition discriminate. Qed.

Lemma present_rounded (lower : string) (item : string * list string) :
  In item clusters ->
  PyFloat.ltb PyFloat.zero (PyFloat.round2 (score_of lower (snd item))) =
  present lower item.
Proof.
  intros Hin. unfold present, score_of. apply Bool.eqb_prop.
  apply (upto_forallb (positive_kept (List.length (snd item)))
           (List.length (snd item)) (hits lower (snd item)));
    [|apply hits_range].
  destruct (ExtensionFacts.item_length item Hin) as [-> | ->];
    vm_compute; reflexivity.
Qed.

Lemma present_fraction how (text : string) (item : string * list string) :
  In item clusters ->
  PyFloat.ltb PyFloat.zero (fraction (analyze_text how text) (fst item)) =
  present (lowered text) item.
Proof.
  intros Hin. unfold fraction, analyze_text. cbn [keyword_coverage].
  rewrite l_keyword_coverage_eq, get_coverage_of;
    [now apply present_rounded | apply clusters_NoDup | assumption].
Qed.

Lemma present_labels_filter how (text : string) :
  l_present_labels (analyze_locals how text) =
  filter (fun label =>
            PyFloat.ltb PyFloat.zero (fraction (analyze_text how text) label))
    labels.
Proof.
  rewrite l_present_labels_eq. unfold labels, PyDict.keys, present_of.
  rewrite filter_map_fst. f_equal. apply filter_ext_in.
  intros item Hin. symmetry. now apply present_fraction.
Qed.

Lemma gaps_filter how (text : string) :
  l_gaps (analyze_locals how text) =
  map gap_message
    (filter (fun label =>
               negb (PyFloat.ltb PyFloat.zero (fraction (analyze_text how text) label)))
       labels).
Proof.
  rewrite l_gaps_eq. unfold labels, PyDict.keys, gaps_of.
  rewrite filter_map_fst, map_map. f_equal. apply filter_ext_in.
  intros item Hin. f_equal. symmetry. now apply present_fraction.
Qed.

Lemma keys_fixed how (text : string) :
  PyDict.keys (l_keyword_coverage (analyze_locals how text)) = labels.
Proof. rewrite l_keyword_coverage_eq. apply keys_coverage_of. Qed.

Lemma after_loop_summary how (st : loop_state) :
  l_summary (after_loop how st) =
  "Your compliance groove is " ++ l_vibe (after_loop how st) ++ " Highlights: " ++
  match l_present_labels (after_loop how st) with
  | [] => "none yet"
  | ls => PyStr.join ", " ls
  end.
Proof. reflexivity. Qed.

Lemma summary_highlights how (text : string) :
  l_summary (analyze_locals how text) =
  "Your compliance groove is " ++ l_vibe (analyze_locals how text) ++
  " Highlights: " ++
  match l_present_labels (analyze_locals how text) with
  | [] => "none yet"
  | ls => PyStr.join ", " ls
  end.
Proof. exact (after_loop_summary how (run_loop (lowered text))). Qed.

End PartitionFacts.

Import PartitionFacts.

(** C10. For every text the six clusters are split between highlights and
    gaps: a cluster is a highlight exactly when its fraction is above 0 and
    otherwise gives one gap string; [keyword_coverage] has exactly the six
    fixed keys; highlights and gaps keep the fixed order of the clusters. *)
Theorem C10_highlights_and_gaps_partition (how : PyFloat.summation) (text : string) :
  labels = ["privacy"; "security"; "governance"; "retention"; "training"; "vendor"] /\
  PyDict.keys (keyword_coverage (analyze_text how text)) = labels /\
  l_present_labels (analyze_locals how text) =
    filter (fun label =>
              PyFloat.ltb PyFloat.zero (fraction (analyze_text how text) label))
      labels /\
  gaps (analyze_text how text) =
    map gap_message
      (filter (fun label =>
                 negb (PyFloat.ltb PyFloat.zero (fraction (analyze_text how text) label)))
         labels) /\
  summary (analyze_text how text) =
    "Your compliance groove is " ++ l_vibe (analyze_locals how text) ++
    " Highlights: " ++
    match l_present_labels (analyze_locals how text) with
    | [] => "none yet"
    | ls => PyStr.join ", " ls
    end.
Proof.
  split; [reflexivity|]. split; [exact (keys_fixed how text)|].
  split; [exact (present_labels_filter how text)|].
  split; [exact (gaps_filter how text) | exact (summary_highlights how text)].
Qed.

(** ** The handler *)

Module HandlerFacts.

Lemma app_eq_self {A} (a l : list A) : (a ++ l)%list = l <-> a = [].
Proof.
  split; [|intros ->; reflexivity].
  intros H. apply (f_equal (@List.length A)) in H. rewrite length_app in H.
  destruct a; [reflexivity | simpl in H; lia].
Qed.

Lemma upload_response how decode db now_stored now_replied file doc_title
    content_bytes :
  read file = Returns content_bytes ->
  upload_and_analyze how decode db now_stored now_replied file doc_title =
  Response
    {| r_id := store db now_stored file doc_title content_bytes
                 (analyze_text how (decode content_bytes));
       r_filename := filename file;
       r_size := Z.of_nat (List.length content_bytes);
       r_mime_type := opt_str_or (content_type file) "text/plain";
       r_uploaded_at := now_replied ++ "Z";
       r_summary := summary (analyze_text how (decode content_bytes));
       r_coverage_score := coverage_score (analyze_text how (decode content_bytes));
       r_keyword_coverage := keyword_coverage (analyze_text how (decode content_bytes));
       r_gaps := gaps (analyze_text how (decode content_bytes));
       r_recommendations :=
         (gaps (analyze_text how (decode content_bytes)) ++ encouragement)%list |}.
Proof. intros Hread. unfold upload_and_analyze. rewrite Hread. reflexivity. Qed.

Lemma store_failing db now_stored file doc_title content_bytes a :
  failing db (payload_of now_stored file doc_title content_bytes a) ->
  store db now_stored file doc_title content_bytes a = None.
Proof.
  unfold store, failing. destruct db as [create_document|]; [|reflexivity].
  intros Hfail. now rewrite Hfail.
Qed.

End HandlerFacts.

Import HandlerFacts.

(** C3. For every upload whose bytes are read, the [recommendations] of the
    response are exactly the [gaps] followed by the two fixed encouragement
    strings, with nothing removed. *)
Theorem C3_recommendations_are_gaps_then_encouragement
    how decode db now_stored now_replied file doc_title content_bytes :
  read file = Returns content_bytes ->
  exists r,
    upload_and_analyze how decode db now_stored now_replied file doc_title
      = Response r /\
    r_gaps r = gaps (analyze_text how (decode content_bytes)) /\
    r_recommendations r =
      (r_gaps r ++
       [ "Celebrate the wins: compliance keeps users safe and builds trust.";
         "We smooth the annoying bits with templates, checklists and automation." ])%list.
Proof.
  intros Hread. eexists.
  split; [exact (upload_response _ _ _ _ _ _ _ _ Hread)|].
  split; reflexivity.
Qed.

Lemma C3_recommendations_are_gaps_then_encouragement_witness :
  exists r,
    upload_and_analyze PyFloat.Plain decode_wellformed None "" "2024-01-01T00:00:00"
      (text_upload "policy.txt" "We encrypt data") "" = Response r /\
    r_gaps r =
      gaps (analyze_text PyFloat.Plain
              (decode_wellformed (list_byte_of_string "We encrypt data"))) /\
    r_recommendations r =
      (r_gaps r ++
       [ "Celebrate the wins: compliance keeps users safe and builds trust.";
         "We smooth the annoying bits with templates, checklists and automation." ])%list.
Proof.
  apply (C3_recommendations_are_gaps_then_encouragement PyFloat.Plain
           decode_wellformed None "" "2024-01-01T00:00:00"
           (text_upload "policy.txt" "We encrypt data") ""
           (list_byte_of_string "We encrypt data")).
  reflexivity.
Defined.

(** C1, as stated, fails: on an empty upload the six advisory sentences
    are built by the scorer but the response has only the six gaps and the
    two encouragement sentences. *)
Lemma C1_counterexample :
  exists r,
    upload_and_analyze PyFloat.Plain decode_wellformed None "" "2024-01-01T00:00:00"
      (text_upload "empty.txt" "") "" = Response r /\
    List.length
      (l_recommendations (analyze_locals PyFloat.Plain (decode_wellformed [])))
      = 6%nat /\
    List.length (r_recommendations r) = 8%nat /\
    r_recommendations r <>
      (l_recommendations (analyze_locals PyFloat.Plain (decode_wellformed [])) ++
       r_gaps r ++ encouragement)%list.
Proof.
  eexists. split; [reflexivity|]. vm_compute. repeat split. discriminate.
Qed.

(** C1, amended. For every upload whose bytes are read and decoded, the
    [recommendations] of the response are the raw [gaps] followed by the two
    encouragement sentences; the advisory list of the scorer is not in the
    report it returns, and the response is the three-part list of the claim
    only when that advisory list is empty. *)
Theorem C1_recommendations_without_advice
    how decode db now_stored now_replied file doc_title content_bytes :
  read file = Returns content_bytes ->
  exists r,
    upload_and_analyze how decode db now_stored now_replied file doc_title
      = Response r /\
    r_recommendations r = (r_gaps r ++ encouragement)%list /\
    (r_recommendations r =
       (l_recommendations (analyze_locals how (decode content_bytes)) ++
        r_gaps r ++ encouragement)%list <->
     l_recommendations (analyze_locals how (decode content_bytes)) = []).
Proof.
  intros Hread. eexists.
  split; [exact (upload_response _ _ _ _ _ _ _ _ Hread)|].
  cbn [r_recommendations r_gaps]. split; [reflexivity|].
  split.
  - intros H. symmetry in H. now apply app_eq_self in H.
  - intros ->. reflexivity.
Qed.

Lemma C1_recommendations_without_advice_witness :
  exists r,
    upload_and_analyze PyFloat.Plain decode_wellformed None "" "2024-01-01T00:00:00"
      (text_upload "policy.txt" "We encrypt data") "" = Response r /\
    r_recommendations r = (r_gaps r ++ encouragement)%list.
Proof.
  destruct (C1_recommendations_without_advice PyFloat.Plain decode_wellformed None ""
              "2024-01-01T00:00:00" (text_upload "policy.txt" "We encrypt data") ""
              (list_byte_of_string "We encrypt data") eq_refl)
    as [r [Hr [Hrec _]]].
  exists r. split; assumption.
Defined.

(** C8. For every upload whose bytes are read, a failure of the persistence
    collaborator, its absence included, is absorbed: the response is still
    produced, its [id] is null, and every other field is what it is when
    persistence succeeds. *)
Theorem C8_persistence_failure_absorbed
    how decode db db' now_stored now_stored' now_replied file doc_title
    content_bytes :
  read file = Returns content_bytes ->
  failing db
    (payload_of now_stored file doc_title content_bytes
       (analyze_text how (decode content_bytes))) ->
  exists r r',
    upload_and_analyze how decode db now_stored now_replied file doc_title
      = Response r /\
    upload_and_analyze how decode db' now_stored' now_replied file doc_title
      = Response r' /\
    r_id r = None /\
    r = {| r_id := None;
           r_filename := r_filename r';
           r_size := r_size r';
           r_mime_type := r_mime_type r';
           r_uploaded_at := r_uploaded_at r';
           r_summary := r_summary r';
           r_coverage_score := r_coverage_score r';
           r_keyword_coverage := r_keyword_coverage r';
           r_gaps := r_gaps r';
           r_recommendations := r_recommendations r' |}.
Proof.
  intros Hread Hfail. eexists. eexists.
  split; [exact (upload_response how decode db now_stored now_replied _ _ _ Hread)|].
  split; [exact (upload_response how decode db' now_stored' now_replied _ _ _ Hread)|].
  cbn [r_id r_filename r_size r_mime_type r_uploaded_at r_summary
       r_coverage_score r_keyword_coverage r_gaps r_recommendations].
  rewrite (store_failing db now_stored file doc_title content_bytes _ Hfail).
  split; reflexivity.
Qed.

Lemma C8_persistence_failure_absorbed_witness :
  failing (Some (fun _ _ => Raises))
    (payload_of "2024-01-01T00:00:00"
       (text_upload "policy.txt" "Our privacy policy") "Policy"
       (list_byte_of_string "Our privacy policy")
       (analyze_text PyFloat.Plain "Our privacy policy")) /\
  exists r r',
    upload_and_analyze PyFloat.Plain decode_wellformed (Some (fun _ _ => Raises))
      "2024-01-01T00:00:00" "2024-01-01T00:00:01"
      (text_upload "policy.txt" "Our privacy policy") "Policy" = Response r /\
    upload_and_analyze PyFloat.Plain decode_wellformed
      (Some (fun _ _ => Returns "65a1"))
      "2024-01-01T00:00:00" "2024-01-01T00:00:01"
      (text_upload "policy.txt" "Our privacy policy") "Policy" = Response r' /\
    r_id r = None /\
    r_summary r = r_summary r' /\
    r_recommendations r = r_recommendations r'.
Proof.
  assert (Hfail : failing (Some (fun _ _ => Raises : outcome string))
                    (payload_of "2024-01-01T00:00:00"
                       (text_upload "policy.txt" "Our privacy policy") "Policy"
                       (list_byte_of_string "Our privacy policy")
                       (analyze_text PyFloat.Plain "Our privacy policy")))
    by reflexivity.
  split; [exact Hfail|].
  destruct (C8_persistence_failure_absorbed PyFloat.Plain decode_wellformed
              (Some (fun _ _ => Raises)) (Some (fun _ _ => Returns "65a1"))
              "2024-01-01T00:00:00" "2024-01-01T00:00:00" "2024-01-01T00:00:01"
              (text_upload "policy.txt" "Our privacy policy") "Policy"
              (list_byte_of_string "Our privacy policy") eq_refl Hfail)
    as [r [r' [Hr [Hr' [Hid Heq]]]]].
  exists r, r'. split; [exact Hr|]. split; [exact Hr'|]. split; [exact Hid|].
  rewrite Heq. cbn [r_summary r_recommendations]. split; reflexivity.
Defined.

(** * Further properties of the scorer *)

Module MarkerFacts.

Lemma hits_zero_iff (lower : string) (kws : list string) :
  hits lower kws = 0 <-> forall k, In k kws -> PyStr.contains k lower = false.
Proof.
  unfold hits. split.
  - intros H k Hk. destruct (PyStr.contains k lower) eqn:Hc; [|reflexivity].
    assert (Hin : In k (filter (fun k => PyStr.contains k lower) kws))
      by (apply filter_In; now split).
    destruct (filter (fun k => PyStr.contains k lower) kws); [contradiction|].
    simpl in H. lia.
  - intros H. induction kws as [|k kws IH]; [reflexivity|].
    simpl. rewrite (H k (or_introl eq_refl)). apply IH.
    intros k' Hk'. apply H. now right.
Qed.

Lemma hits_full_iff (lower : string) (kws : list string) :
  hits lower kws = Z.of_nat (List.length kws) <->
  forall k, In k kws -> PyStr.contains k lower = true.
Proof.
  unfold hits. split.
  - intros H k Hk. apply Nat2Z.inj in H.
    induction kws as [|k' kws IH]; [contradiction|].
    simpl in H. destruct (PyStr.contains k' lower) eqn:Hc.
    + simpl in H. destruct Hk as [<- | Hk]; [exact Hc | apply IH; [lia | exact Hk]].
    + pose proof (filter_length_le (fun k => PyStr.contains k lower) kws). lia.
  - intros H. f_equal. induction kws as [|k kws IH]; [reflexivity|].
    simpl. rewrite (H k (or_introl eq_refl)). simpl. f_equal. apply IH.
    intros k' Hk'. apply H. now right.
Qed.

(** A cluster is present exactly when it has a hit. *)
Lemma present_iff_hit (lower : string) (item : string * list string) :
  In item clusters ->
  present lower item = true <-> 0 < hits lower (snd item).
Proof.
  intros Hin. unfold present, score_of.
  assert (Hb : PyFloat.ltb PyFloat.zero
                 (PyFloat.truediv (hits lower (snd item))
                    (Z.max (Z.of_nat (List.length (snd item))) 1)) =
               (0 <? hits lower (snd item))).
  { apply Bool.eqb_prop.
    apply (upto_forallb
             (fun h => Bool.eqb
                (PyFloat.ltb PyFloat.zero
                   (PyFloat.truediv h (Z.max (Z.of_nat (List.length (snd item))) 1)))
                (0 <? h))
             (List.length (snd item)) (hits lower (snd item)));
      [|apply hits_range].
    destruct (ExtensionFacts.item_length item Hin) as [-> | ->];
      vm_compute; reflexivity. }
  rewrite Hb. apply Z.ltb_lt.
Qed.

Lemma present_iff_marker (lower : string) (item : string * list string) :
  In item clusters ->
  present lower item = true <->
  exists k, In k (snd item) /\ PyStr.contains k lower = true.
Proof.
  intros Hin. rewrite (present_iff_hit lower item Hin). split.
  - intros Hpos. destruct (existsb (fun k => PyStr.contains k lower) (snd item)) eqn:Hex.
    + apply existsb_exists in Hex. exact Hex.
    + exfalso. assert (H0 : hits lower (snd item) = 0); [|lia].
      apply hits_zero_iff. intros k Hk.
      destruct (PyStr.contains k lower) eqn:Hc; [|reflexivity].
      assert (Ht : existsb (fun k => PyStr.contains k lower) (snd item) = true)
        by (apply existsb_exists; now exists k).
      congruence.
  - intros [k [Hk Hc]].
    destruct (Z.eq_dec (hits lower (snd item)) 0) as [H0 | Hne].
    + rewrite hits_zero_iff in H0. rewrite (H0 k Hk) in Hc. discriminate.
    + pose proof (hits_range lower (snd item)). lia.
Qed.

Lemma length_app (a b : string) :
  String.length (a ++ b) = (String.length a + String.length b)%nat.
Proof. induction a; simpl; congruence. Qed.

Lemma app_inv_head (a b c : string) : a ++ b = a ++ c -> b = c.
Proof. induction a; simpl; intros H; [assumption | injection H as H; auto]. Qed.

Lemma app_inv_tail (a b c : string) : a ++ c = b ++ c -> a = b.
Proof.
  revert b; induction a as [|x a IH]; intros [|y b] H; simpl in H.
  - reflexivity.
  - apply (f_equal String.length) in H. simpl in H. rewrite length_app in H. lia.
  - apply (f_equal String.length) in H. simpl in H. rewrite length_app in H. lia.
  - injection H as -> H. f_equal. now apply IH.
Qed.

(** Two clusters never share a gap string. *)
Lemma gap_message_inj (l l' : string) : gap_message l = gap_message l' -> l = l'.
Proof.
  unfold gap_message. intros H. apply app_inv_head in H.
  now apply app_inv_tail in H.
Qed.

End MarkerFacts.

Import MarkerFacts.

Lemma highlights_and_gaps_iff (how : PyFloat.summation) (text label : string) :
  (In label (l_present_labels (analyze_locals how text)) <->
   exists kws k, In (label, kws) clusters /\ In k kws /\
                 PyStr.contains k (PyStr.lower text) = true) /\
  (In (gap_message label) (gaps (analyze_text how text)) <->
   exists kws, In (label, kws) clusters /\
               forall k, In k kws -> PyStr.contains k (PyStr.lower text) = false).
Proof.
  split.
  - rewrite l_present_labels_eq, lowered_lower. unfold present_of.
    rewrite in_map_iff. split.
    + intros [[l kws] [Hl Hin]]. cbn [fst] in Hl. subst l.
      apply filter_In in Hin as [Hin Hp].
      apply (present_iff_marker _ _ Hin) in Hp as [k [Hk Hc]].
      now exists kws, k.
    + intros [kws [k [Hin [Hk Hc]]]]. exists (label, kws). split; [reflexivity|].
      apply filter_In. split; [assumption|].
      apply (present_iff_marker _ _ Hin). now exists k.
  - unfold analyze_text. cbn [gaps]. rewrite l_gaps_eq, lowered_lower.
    unfold gaps_of. rewrite in_map_iff. split.
    + intros [[l kws] [Hl Hin]]. cbn [fst] in Hl.
      apply filter_In in Hin as [Hin Hp].
      apply gap_message_inj in Hl. subst l. exists kws. split; [assumption|].
      intros k Hk. destruct (PyStr.contains k (PyStr.lower text)) eqn:Hc; [|reflexivity].
      apply negb_true_iff in Hp.
      assert (Ht : present (PyStr.lower text) (label, kws) = true)
        by (apply (present_iff_marker _ _ Hin); now exists k).
      congruence.
    + intros [kws [Hin Hnone]]. exists (label, kws). split; [reflexivity|].
      apply filter_In. split; [assumption|].
      apply negb_true_iff.
      destruct (present (PyStr.lower text) (label, kws)) eqn:Hp; [|reflexivity].
      apply (present_iff_marker _ _ Hin) in Hp as [k [Hk Hc]].
      rewrite (Hnone k Hk) in Hc. discriminate.
Qed.

(** X1. A cluster is among the highlights exactly when one of its markers
    occurs in the lower-cased text, and its gap string is among the gaps
    exactly when none does. *)
Theorem highlight_iff_marker_occurs (how : PyFloat.summation) (text label : string) :
  (In label (l_present_labels (analyze_locals how text)) <->
   exists kws k, In (label, kws) clusters /\ In k kws /\
                 PyStr.contains k (PyStr.lower text) = true) /\
  (In (gap_message label) (gaps (analyze_text how text)) <->
   exists kws, In (label, kws) clusters /\
               forall k, In k kws -> PyStr.contains k (PyStr.lower text) = false).
Proof. exact (highlights_and_gaps_iff how text label). Qed.

Module TotalFacts.

Lemma filter_nil_iff {A} (f : A -> bool) (l : list A) :
  filter f l = [] <-> forall x, In x l -> f x = false.
Proof.
  induction l as [|x l IH]; simpl.
  - split; [intros _ y [] | reflexivity].
  - destruct (f x) eqn:Hfx.
    + split; [discriminate|]. intros H. rewrite (H x (or_introl eq_refl)) in Hfx.
      discriminate.
    + rewrite IH. split.
      * intros H y [<- | Hy]; [assumption | now apply H].
      * intros H y Hy. apply H. now right.
Qed.

Lemma filter_all {A} (f : A -> bool) (l : list A) :
  (forall x, In x l -> f x = true) -> filter f l = l.
Proof.
  induction l as [|x l IH]; intros H; simpl; [reflexivity|].
  rewrite (H x (or_introl eq_refl)). f_equal. apply IH.
  intros y Hy. apply H. now right.
Qed.

Lemma step_facts_hold (lower : string) (item : string * list string) :
  In item clusters ->
  step_facts (List.length (snd item)) (hits lower (snd item)) = true.
Proof.
  intros Hin.
  apply (upto_forallb (step_facts (List.length (snd item)))
           (List.length (snd item)) (hits lower (snd item)));
    [|apply hits_range].
  destruct (ExtensionFacts.item_length item Hin) as [-> | ->];
    vm_compute; reflexivity.
Qed.

Lemma mean_facts_hold how : forallb mean_facts (means how) = true.
Proof. destruct how; vm_compute; reflexivity. Qed.

Lemma score_facts how (text : string) :
  mean_facts (total (hundredths_of (lowered text)),
              l_coverage_score (analyze_locals how text)) = true.
Proof.
  pose proof (mean_facts_hold how) as Hall. rewrite forallb_forall in Hall.
  exact (Hall _ (score_in_means how text)).
Qed.

(** The hundredths of a cluster: between 0 and 100, 0 with no hit only,
    100 with every marker hit only. *)
Lemma hundredths_bounds (lower : string) (item : string * list string) :
  In item clusters ->
  let w := hundredths (hits lower (snd item)) (Z.of_nat (List.length (snd item))) in
  0 <= w <= 100 /\
  (w = 0 <-> hits lower (snd item) = 0) /\
  (w = 100 <-> hits lower (snd item) = Z.of_nat (List.length (snd item))) /\
  (PyFloat.leb PyFloat.half (PyFloat.dec2 w) = true -> 50 <= w).
Proof.
  intros Hin w. pose proof (step_facts_hold lower item Hin) as H.
  unfold step_facts in H. fold w in H.
  repeat rewrite andb_true_iff in H. destruct H as [[[[H0 H100] Hz] Hf] Hh].
  apply Z.leb_le in H0. apply Z.leb_le in H100.
  apply Bool.eqb_prop in Hz. apply Bool.eqb_prop in Hf.
  split; [lia|]. split; [|split].
  - rewrite <- !Z.eqb_eq. now rewrite Hz.
  - rewrite <- !Z.eqb_eq. now rewrite Hf.
  - intros Hle. rewrite Hle in Hh. cbn [implb] in Hh. now apply Z.leb_le.
Qed.

Lemma total_bounds (ws : list Z) :
  Forall (fun w => 0 <= w <= 100) ws ->
  0 <= total ws <= 100 * Z.of_nat (List.length ws) /\
  (total ws = 0 <-> Forall (fun w => w = 0) ws) /\
  (total ws = 100 * Z.of_nat (List.length ws) <-> Forall (fun w => w = 100) ws).
Proof.
  induction 1 as [|w ws Hw Hws [IHb [IH0 IH1]]].
  - cbn. split; [lia|]. split; split; auto.
  - rewrite ExtensionFacts.total_cons. cbn [List.length]. rewrite Nat2Z.inj_succ.
    split; [lia|]. split; split.
    + intros H. assert (w = 0) by lia. constructor; [assumption|]. apply IH0. lia.
    + intros H. inversion H as [|? ? Hw0 Hws0]; subst.
      apply IH0 in Hws0. lia.
    + intros H. assert (w = 100) by lia. constructor; [assumption|]. apply IH1. lia.
    + intros H. inversion H as [|? ? Hw1 Hws1]; subst.
      apply IH1 in Hws1. lia.
Qed.

Lemma hundredths_of_bounded (lower : string) :
  Forall (fun w => 0 <= w <= 100) (hundredths_of lower).
Proof.
  unfold hundredths_of. apply Forall_forall. intros w Hw.
  apply in_map_iff in Hw as [item [<- Hin]].
  exact (proj1 (hundredths_bounds lower item Hin)).
Qed.

Lemma hundredths_of_length (lower : string) :
  List.length (hundredths_of lower) = 6%nat.
Proof. unfold hundredths_of. rewrite length_map. reflexivity. Qed.

Lemma total_zero_iff (lower : string) :
  total (hundredths_of lower) = 0 <->
  forall k, In k markers -> PyStr.contains k lower = false.
Proof.
  rewrite (proj1 (proj2 (total_bounds _ (hundredths_of_bounded lower)))).
  unfold hundredths_of. rewrite Forall_forall. split.
  - intros H k Hk. unfold markers in Hk. apply in_flat_map in Hk as [item [Hin Hk]].
    assert (H0 : hits lower (snd item) = 0).
    { apply (proj1 (proj2 (hundredths_bounds lower item Hin))).
      apply H. apply in_map_iff. now exists item. }
    rewrite hits_zero_iff in H0. now apply H0.
  - intros H w Hw. apply in_map_iff in Hw as [item [<- Hin]].
    apply (proj1 (proj2 (hundredths_bounds lower item Hin))).
    apply hits_zero_iff. intros k Hk. apply H.
    unfold markers. apply in_flat_map. now exists item.
Qed.

Lemma total_full_iff (lower : string) :
  total (hundredths_of lower) = 600 <->
  forall k, In k markers -> PyStr.contains k lower = true.
Proof.
  pose proof (proj2 (proj2 (total_bounds _ (hundredths_of_bounded lower)))) as H6.
  rewrite hundredths_of_length in H6. change (100 * Z.of_nat 6) with 600 in H6.
  rewrite H6. unfold hundredths_of. rewrite Forall_forall. split.
  - intros H k Hk. unfold markers in Hk. apply in_flat_map in Hk as [item [Hin Hk]].
    assert (H1 : hits lower (snd item) = Z.of_nat (List.length (snd item))).
    { apply (proj1 (proj2 (proj2 (hundredths_bounds lower item Hin)))).
      apply H. apply in_map_iff. now exists item. }
    rewrite hits_full_iff in H1. now apply H1.
  - intros H w Hw. apply in_map_iff in Hw as [item [<- Hin]].
    apply (proj1 (proj2 (proj2 (hundredths_bounds lower item Hin)))).
    apply hits_full_iff. intros k Hk. apply H.
    unfold markers. apply in_flat_map. now exists item.
Qed.

End TotalFacts.

Import TotalFacts.

(** X2. No gap is reported exactly when every cluster has a marker in the
    lower-cased text; the highlights are then the six clusters in their
    fixed order. *)
Theorem no_gap_iff_every_cluster_hit (how : PyFloat.summation) (text : string) :
  (gaps (analyze_text how text) = [] <->
   forall label kws, In (label, kws) clusters ->
     exists k, In k kws /\ PyStr.contains k (PyStr.lower text) = true) /\
  (gaps (analyze_text how text) = [] ->
   l_present_labels (analyze_locals how text) = labels).
Proof.
  unfold analyze_text. cbn [gaps].
  rewrite l_gaps_eq, l_present_labels_eq, lowered_lower. unfold gaps_of, present_of.
  assert (Hiff : filter (fun item => negb (present (PyStr.lower text) item)) clusters = [] <->
                 forall item, In item clusters -> present (PyStr.lower text) item = true).
  { rewrite filter_nil_iff. split; intros H item Hin.
    - apply negb_false_iff. now apply H.
    - apply negb_false_iff. now apply H. }
  split.
  - split.
    + intros H. apply map_eq_nil in H. rewrite Hiff in H.
      intros label kws Hin. apply (present_iff_marker _ (label, kws) Hin).
      now apply H.
    + intros H.
      assert (Hf : filter (fun item => negb (present (PyStr.lower text) item)) clusters = []).
      { apply Hiff. intros [label kws] Hin.
        apply (present_iff_marker _ (label, kws) Hin). now apply (H label kws). }
      now rewrite Hf.
  - intros H. apply map_eq_nil in H. rewrite Hiff in H.
    rewrite (filter_all _ _ H). reflexivity.
Qed.

(** X3. Every fraction is the double nearest to hits / markers rounded to two
    decimals, so that only eleven values occur: 0, 0.17, 0.2, 0.33, 0.4,
    0.5, 0.6, 0.67, 0.8, 0.83 and 1.0. *)
Theorem fractions_from_hits (how : PyFloat.summation) (text : string) :
  keyword_coverage (analyze_text how text) =
    map (fun item : string * list string =>
           (fst item,
            PyFloat.dec2
              (hundredths (hits (PyStr.lower text) (snd item))
                 (Z.of_nat (List.length (snd item))))))
      clusters /\
  Forall (fun kv => In (snd kv)
                      (map PyFloat.dec2 [0; 17; 20; 33; 40; 50; 60; 67; 80; 83; 100]))
    (keyword_coverage (analyze_text how text)).
Proof.
  assert (Heq : keyword_coverage (analyze_text how text) =
                map (fun item : string * list string =>
                       (fst item,
                        PyFloat.dec2
                          (hundredths (hits (PyStr.lower text) (snd item))
                             (Z.of_nat (List.length (snd item))))))
                  clusters).
  { unfold analyze_text. cbn [keyword_coverage].
    rewrite l_keyword_coverage_eq, lowered_lower. unfold coverage_of.
    apply map_ext_in. intros item Hin. now rewrite round2_score_of. }
  split; [exact Heq|]. rewrite Heq. apply Forall_forall. intros kv Hkv.
  apply in_map_iff in Hkv as [item [<- Hin]]. cbn [snd].
  apply in_map.
  pose proof (hundredths_in_steps (hits (PyStr.lower text) (snd item))
                (List.length (snd item)) (hits_range _ _)) as Hs.
  assert (Hall : forallb
                   (fun w => existsb (Z.eqb w) [0; 17; 20; 33; 40; 50; 60; 67; 80; 83; 100])
                   (steps (List.length (snd item))) = true)
    by (destruct (ExtensionFacts.item_length item Hin) as [-> | ->];
        vm_compute; reflexivity).
  rewrite forallb_forall in Hall. specialize (Hall _ Hs).
  apply existsb_exists in Hall as [v [Hv Heqv]].
  apply Z.eqb_eq in Heqv. now rewrite Heqv.
Qed.

Module TierFacts.

Lemma mean_facts_read (T : Z) (m : PyFloat.float) :
  mean_facts (T, m) = true ->
  (m = PyFloat.zero <-> T = 0) /\
  (m = PyFloat.one <-> T = 600) /\
  (PyFloat.leb PyFloat.three_quarters m = true -> 400 < T) /\
  (PyFloat.leb PyFloat.half m = true -> 200 < T) /\
  (300 <= T -> PyFloat.leb PyFloat.half m = true).
Proof.
  unfold mean_facts. cbn [fst snd]. rewrite !andb_true_iff.
  intros [[[[Hz Ho] Hr] Hd] Hh].
  apply Bool.eqb_prop in Hz. apply Bool.eqb_prop in Ho.
  repeat split.
  - intros ->. apply Z.eqb_eq. rewrite <- Hz. reflexivity.
  - intros HT. apply float_same_eq. rewrite Hz. now apply Z.eqb_eq.
  - intros ->. apply Z.eqb_eq. rewrite <- Ho. vm_compute. reflexivity.
  - intros HT. apply float_same_eq. rewrite Ho. now apply Z.eqb_eq.
  - intros H. rewrite H in Hr. cbn [implb] in Hr. now apply Z.ltb_lt.
  - intros H. rewrite H in Hd. cbn [implb] in Hd. now apply Z.ltb_lt.
  - intros H. apply Z.leb_le in H. rewrite H in Hh. exact Hh.
Qed.

Lemma score_read how (text : string) :
  let T := total (hundredths_of (lowered text)) in
  let m := l_coverage_score (analyze_locals how text) in
  (m = PyFloat.zero <-> T = 0) /\
  (m = PyFloat.one <-> T = 600) /\
  (PyFloat.leb PyFloat.three_quarters m = true -> 400 < T) /\
  (PyFloat.leb PyFloat.half m = true -> 200 < T) /\
  (300 <= T -> PyFloat.leb PyFloat.half m = true).
Proof. exact (mean_facts_read _ _ (score_facts how text)). Qed.

Lemma after_loop_vibe how (st : loop_state) :
  l_vibe (after_loop how st) =
  if PyFloat.leb PyFloat.three_quarters (l_coverage_score (after_loop how st))
  then vibe_rock_solid
  else if PyFloat.leb PyFloat.half (l_coverage_score (after_loop how st))
       then vibe_decent
       else vibe_work_in_progress.
Proof. reflexivity. Qed.

Lemma l_vibe_eq how (text : string) :
  l_vibe (analyze_locals how text) =
  if PyFloat.leb PyFloat.three_quarters (l_coverage_score (analyze_locals how text))
  then vibe_rock_solid
  else if PyFloat.leb PyFloat.half (l_coverage_score (analyze_locals how text))
       then vibe_decent
       else vibe_work_in_progress.
Proof. exact (after_loop_vibe how (run_loop (lowered text))). Qed.

(** Each gap takes a hundred hundredths from the total. *)
Lemma total_and_gaps (lower : string) (cl : list (string * list string)) :
  (forall item, In item cl -> In item clusters) ->
  total (map (fun item : string * list string =>
                hundredths (hits lower (snd item))
                  (Z.of_nat (List.length (snd item)))) cl) +
  100 * Z.of_nat (List.length (filter (fun item => negb (present lower item)) cl))
  <= 100 * Z.of_nat (List.length cl).
Proof.
  induction cl as [|item cl IH]; intros Hsub; [cbn; lia|].
  cbn [map filter]. rewrite ExtensionFacts.total_cons.
  assert (Hin : In item clusters) by (apply Hsub; now left).
  assert (IH' := IH (fun i Hi => Hsub i (or_intror Hi))).
  destruct (hundredths_bounds lower item Hin) as [Hb [Hz _]]. cbv zeta in Hb, Hz.
  destruct (present lower item) eqn:Hp; cbn [negb List.length];
    rewrite ?Nat2Z.inj_succ.
  - lia.
  - assert (H0 : hits lower (snd item) = 0).
    { pose proof (hits_range lower (snd item)) as Hr.
      destruct (Z.eq_dec (hits lower (snd item)) 0) as [He | Hne]; [exact He|].
      assert (Ht : present lower item = true)
        by (apply (present_iff_hit lower item Hin); lia).
      congruence. }
    apply Hz in H0. lia.
Qed.

Lemma gaps_and_total how (text : string) :
  total (hundredths_of (lowered text)) +
  100 * Z.of_nat (List.length (l_gaps (analyze_locals how text))) <= 600.
Proof.
  rewrite l_gaps_eq. unfold gaps_of. rewrite length_map.
  exact (total_and_gaps (lowered text) clusters (fun i Hi => Hi)).
Qed.

End TierFacts.

Import TierFacts.

(** X4. The score is 0.0 exactly when no marker occurs in the lower-cased
    text, and 1.0 exactly when every marker of every cluster occurs. *)
Theorem score_zero_and_one (how : PyFloat.summation) (text : string) :
  (coverage_score (analyze_text how text) = PyFloat.zero <->
   forall k, In k markers -> PyStr.contains k (PyStr.lower text) = false) /\
  (coverage_score (analyze_text how text) = PyFloat.one <->
   has_all text markers).
Proof.
  destruct (score_read how text) as [Hz [Ho _]].
  rewrite total_zero_iff in Hz. rewrite total_full_iff in Ho.
  rewrite lowered_lower in Hz, Ho.
  split; [exact Hz | exact Ho].
Qed.

(** X5. The tier of the summary bounds the gaps: a rock-solid summary comes
    with at most one gap, a decent one with at most three. *)
Theorem gaps_bounded_by_tier (how : PyFloat.summation) (text : string) :
  gaps_allowed vibe_rock_solid = 1%nat /\
  gaps_allowed vibe_decent = 3%nat /\
  gaps_allowed vibe_work_in_progress = 6%nat /\
  (List.length (gaps (analyze_text how text)) <=
   gaps_allowed (l_vibe (analyze_locals how text)))%nat.
Proof.
  split; [vm_compute; reflexivity|].
  split; [vm_compute; reflexivity|].
  split; [vm_compute; reflexivity|].
  unfold analyze_text. cbn [gaps].
  pose proof (gaps_and_total how text) as Hg.
  destruct (score_read how text) as [_ [_ [Hr [Hd _]]]].
  pose proof (proj1 (total_bounds _ (hundredths_of_bounded (lowered text)))) as Hb.
  rewrite (l_vibe_eq how text).
  destruct (PyFloat.leb PyFloat.three_quarters
              (l_coverage_score (analyze_locals how text))).
  - specialize (Hr eq_refl).
    change (gaps_allowed vibe_rock_solid) with 1%nat. lia.
  - destruct (PyFloat.leb PyFloat.half
                (l_coverage_score (analyze_locals how text))).
    + specialize (Hd eq_refl).
      change (gaps_allowed vibe_decent) with 3%nat. lia.
    + change (gaps_allowed vibe_work_in_progress) with 6%nat. lia.
Qed.

Module TextFacts.

Lemma no_marker_in_empty :
  forallb (fun k => negb (PyStr.contains k (lowered ""))) markers = true.
Proof. vm_compute. reflexivity. Qed.

Lemma in_some_cluster (k : string) :
  In k markers -> exists label kws, In (label, kws) clusters /\ In k kws.
Proof.
  unfold markers. intros H. apply in_flat_map in H as [[label kws] [Hin Hk]].
  now exists label, kws.
Qed.

End TextFacts.

Import TextFacts.

(** X6. A text in which no marker occurs gets the report of the empty text:
    six fractions of 0, score 0, six gaps, no highlight. *)
Theorem marker_free_text_as_empty (how : PyFloat.summation) (text : string) :
  (forall k, In k markers -> PyStr.contains k (PyStr.lower text) = false) ->
  analyze_text how text = analyze_text how "" /\
  l_present_labels (analyze_locals how text) = [].
Proof.
  intros Hnone.
  assert (Hrun : analyze_locals how text = analyze_locals how "").
  { apply analyze_locals_run. apply run_loop_ext. intros label kws k Hc Hk.
    pose proof (in_markers label kws k Hc Hk) as Hm.
    rewrite lowered_lower at 1. rewrite (Hnone k Hm).
    pose proof no_marker_in_empty as He. rewrite forallb_forall in He.
    specialize (He k Hm). apply negb_true_iff in He. now rewrite He. }
  unfold analyze_text. rewrite Hrun. split; [reflexivity|].
  destruct how; vm_compute; reflexivity.
Qed.

Lemma marker_free_text_as_empty_witness :
  (forall k, In k markers ->
     PyStr.contains k (PyStr.lower "Hello, World!") = false) /\
  analyze_text PyFloat.Plain "Hello, World!" = analyze_text PyFloat.Plain "".
Proof.
  assert (H : forall k, In k markers ->
                PyStr.contains k (PyStr.lower "Hello, World!") = false).
  { assert (Hall : forallb (fun k => negb (PyStr.contains k (PyStr.lower "Hello, World!")))
                     markers = true) by (vm_compute; reflexivity).
    rewrite forallb_forall in Hall. intros k Hk. apply negb_true_iff.
    now apply Hall. }
  split; [exact H|].
  exact (proj1 (marker_free_text_as_empty PyFloat.Plain "Hello, World!" H)).
Defined.

(** X7. The security marker "access control" ends with the governance marker
    "control": a text that has it always has security and governance among
    its highlights, and never the governance gap. *)
Theorem access_control_counts_for_governance (how : PyFloat.summation) (text : string) :
  PyStr.contains "access control" (PyStr.lower text) = true ->
  In "security" (l_present_labels (analyze_locals how text)) /\
  In "governance" (l_present_labels (analyze_locals how text)) /\
  ~ In (gap_message "governance") (gaps (analyze_text how text)).
Proof.
  intros Hac. pose proof (access_control_has_control text Hac) as Hctl.
  split; [|split].
  - apply (highlights_and_gaps_iff how text "security").
    exists ["encryption"; "access control"; "key management"; "vulnerability";
            "patch"; "incident"], "access control".
    split; [unfold clusters; simpl; auto|]. split; [simpl; auto | exact Hac].
  - apply (highlights_and_gaps_iff how text "governance").
    exists ["risk"; "policy"; "procedure"; "audit"; "control"; "evidence"], "control".
    split; [unfold clusters; simpl; auto|]. split; [simpl; auto 10 | exact Hctl].
  - intros Hgap.
    apply (highlights_and_gaps_iff how text "governance") in Hgap as [kws [Hin Hnone]].
    assert (Hk : In "control" kws).
    { unfold clusters in Hin. simpl in Hin.
      repeat (destruct Hin as [Hin | Hin];
              [inversion Hin; subst; simpl; auto 10|]).
      contradiction. }
    rewrite (Hnone "control" Hk) in Hctl. discriminate.
Qed.

Lemma access_control_counts_for_governance_witness :
  PyStr.contains "access control" (PyStr.lower "Access Control List") = true /\
  In "governance" (l_present_labels (analyze_locals PyFloat.Plain "Access Control List")).
Proof.
  assert (H : PyStr.contains "access control" (PyStr.lower "Access Control List") = true)
    by (vm_compute; reflexivity).
  split; [exact H|].
  exact (proj1 (proj2 (access_control_counts_for_governance PyFloat.Plain
                         "Access Control List" H))).
Defined.

(** X8. When every fraction is at least 0.5 the summary is not the
    work-in-progress one. *)
Theorem half_covered_is_not_work_in_progress (how : PyFloat.summation) (text : string) :
  Forall (fun kv => PyFloat.leb PyFloat.half (snd kv) = true)
    (keyword_coverage (analyze_text how text)) ->
  l_vibe (analyze_locals how text) <> vibe_work_in_progress.
Proof.
  intros Hall. unfold analyze_text in Hall. cbn [keyword_coverage] in Hall.
  rewrite l_keyword_coverage_eq in Hall. unfold coverage_of in Hall.
  rewrite Forall_forall in Hall.
  assert (Hws : Forall (fun w => 50 <= w <= 100) (hundredths_of (lowered text))).
  { unfold hundredths_of. apply Forall_forall. intros w Hw.
    apply in_map_iff in Hw as [item [<- Hin]].
    destruct (hundredths_bounds (lowered text) item Hin) as [Hb [_ [_ Hh]]].
    cbv zeta in Hb, Hh. split; [|lia]. apply Hh.
    rewrite <- (round2_score_of (lowered text) item Hin).
    apply (Hall (fst item, PyFloat.round2 (score_of (lowered text) (snd item)))).
    apply in_map_iff. now exists item. }
  assert (HT : 300 <= total (hundredths_of (lowered text))).
  { assert (Hsum : forall ws, Forall (fun w => 50 <= w <= 100) ws ->
                     50 * Z.of_nat (List.length ws) <= total ws).
    { induction 1 as [|w ws Hw Hrest IH]; [cbn; lia|].
      rewrite ExtensionFacts.total_cons. cbn [List.length].
      rewrite Nat2Z.inj_succ. lia. }
    specialize (Hsum _ Hws). rewrite hundredths_of_length in Hsum. lia. }
  destruct (score_read how text) as [_ [_ [_ [_ Hh]]]].
  specialize (Hh HT). rewrite (l_vibe_eq how text), Hh.
  destruct (PyFloat.leb PyFloat.three_quarters
              (l_coverage_score (analyze_locals how text)));
    intros Heq; vm_compute in Heq; discriminate.
Qed.

Lemma half_covered_is_not_work_in_progress_witness :
  Forall (fun kv => PyFloat.leb PyFloat.half (snd kv) = true)
    (keyword_coverage (analyze_text PyFloat.Plain every_marker)) /\
  l_vibe (analyze_locals PyFloat.Plain every_marker) <> vibe_work_in_progress.
Proof.
  assert (H : Forall (fun kv => PyFloat.leb PyFloat.half (snd kv) = true)
                (keyword_coverage (analyze_text PyFloat.Plain every_marker))).
  { apply Forall_forall. intros kv Hkv.
    assert (Hall : forallb (fun kv => PyFloat.leb PyFloat.half (snd kv))
                     (keyword_coverage (analyze_text PyFloat.Plain every_marker)) = true)
      by (vm_compute; reflexivity).
    rewrite forallb_forall in Hall. exact (Hall kv Hkv). }
  split; [exact H|].
  exact (half_covered_is_not_work_in_progress PyFloat.Plain every_marker H).
Defined.

(** * Further properties of the upload handler *)

Module UploadFacts.

Lemma gaps_at_most_six how (text : string) :
  (List.length (gaps (analyze_text how text)) <= 6)%nat.
Proof.
  unfold analyze_text. cbn [gaps]. rewrite l_gaps_eq. unfold gaps_of.
  rewrite length_map.
  exact (filter_length_le (fun item => negb (present (lowered text) item)) clusters).
Qed.

Lemma opt_str_or_nonempty (x : option string) (y : string) :
  y <> "" -> opt_str_or x y <> "".
Proof.
  intros Hy. destruct x as [[|c s]|]; simpl; [assumption | discriminate | assumption].
Qed.

End UploadFacts.

Import UploadFacts.

(** X9. The handler answers 400 "Unable to read uploaded file" exactly when
    the file cannot be read, whatever the title, the store and the clock;
    in every other case it answers with a report. *)
Theorem unreadable_upload_is_400
    how decode db now_stored now_replied file doc_title :
  (read file = Raises <->
   upload_and_analyze how decode db now_stored now_replied file doc_title =
   HTTPException 400 "Unable to read uploaded file") /\
  ((exists content_bytes, read file = Returns content_bytes) <->
   exists r,
     upload_and_analyze how decode db now_stored now_replied file doc_title
     = Response r).
Proof.
  unfold upload_and_analyze. destruct (read file) as [content_bytes|].
  - split; split; try discriminate.
    + intros _. eexists. reflexivity.
    + intros _. now exists content_bytes.
  - split; split; try reflexivity.
    + intros [bs Hbs]. discriminate.
    + intros [r Hr]. discriminate.
Qed.

(** X10. When the store takes the record, the response carries the
    identifier it returned, and the record stored has the file name, size,
    type and report of the response; its title is the title given, or the
    file name when none is given. *)
Theorem stored_record_matches_response
    how decode (create_document : database) now_stored now_replied file doc_title
    content_bytes id :
  read file = Returns content_bytes ->
  create_document "analysis"
    (payload_of now_stored file doc_title content_bytes
       (analyze_text how (decode content_bytes))) = Returns id ->
  exists r,
    upload_and_analyze how decode (Some create_document) now_stored now_replied
      file doc_title = Response r /\
    r_id r = Some id /\
    let p := payload_of now_stored file doc_title content_bytes
               (analyze_text how (decode content_bytes)) in
    p_filename p = r_filename r /\
    p_size p = r_size r /\
    p_mime_type p = r_mime_type r /\
    p_analysis p =
      {| coverage_score := r_coverage_score r;
         keyword_coverage := r_keyword_coverage r;
         gaps := r_gaps r;
         summary := r_summary r |} /\
    p_title p = match doc_title with EmptyString => filename file | _ => doc_title end.
Proof.
  intros Hread Hstore. eexists.
  split; [exact (upload_response _ _ _ _ _ _ _ _ Hread)|].
  cbn [r_id r_filename r_size r_mime_type r_coverage_score r_keyword_coverage
       r_gaps r_summary].
  split.
  - unfold store. now rewrite Hstore.
  - cbv zeta. unfold payload_of.
    cbn [p_filename p_size p_mime_type p_analysis p_title].
    split; [reflexivity|]. split; [reflexivity|]. split; [reflexivity|].
    split.
    + generalize (analyze_text how (decode content_bytes)).
      intros a. destruct a. reflexivity.
    + destruct doc_title; reflexivity.
Qed.

Lemma stored_record_matches_response_witness :
  exists r,
    upload_and_analyze PyFloat.Plain decode_wellformed
      (Some (fun _ _ => Returns "65a1")) "2024-01-01T00:00:00" "2024-01-01T00:00:01"
      (text_upload "policy.txt" "Our privacy policy") "" = Response r /\
    r_id r = Some "65a1".
Proof.
  destruct (stored_record_matches_response PyFloat.Plain decode_wellformed
              (fun _ _ => Returns "65a1") "2024-01-01T00:00:00" "2024-01-01T00:00:01"
              (text_upload "policy.txt" "Our privacy policy") ""
              (list_byte_of_string "Our privacy policy") "65a1" eq_refl eq_refl)
    as [r [Hr [Hid _]]].
  exists r. split; assumption.
Defined.

(** X11. The [mime_type] of a response is the declared content type, or
    "text/plain" when none is declared or the declared one is empty; it is
    never empty. *)
Theorem mime_type_defaults_to_text_plain
    how decode db now_stored now_replied file doc_title content_bytes :
  read file = Returns content_bytes ->
  exists r,
    upload_and_analyze how decode db now_stored now_replied file doc_title
      = Response r /\
    r_mime_type r =
      match content_type file with
      | Some (String c s) => String c s
      | _ => "text/plain"
      end /\
    r_mime_type r <> "".
Proof.
  intros Hread. eexists.
  split; [exact (upload_response _ _ _ _ _ _ _ _ Hread)|].
  cbn [r_mime_type]. split.
  - now destruct (content_type file) as [[|c s]|].
  - apply opt_str_or_nonempty. discriminate.
Qed.

Lemma mime_type_defaults_to_text_plain_witness :
  exists r,
    upload_and_analyze PyFloat.Plain decode_wellformed None "" "2024-01-01T00:00:00"
      {| filename := "notes"; content_type := Some "";
         read := Returns (list_byte_of_string "notes") |} "" = Response r /\
    r_mime_type r = "text/plain".
Proof.
  destruct (mime_type_defaults_to_text_plain PyFloat.Plain decode_wellformed None ""
              "2024-01-01T00:00:00"
              {| filename := "notes"; content_type := Some "";
                 read := Returns (list_byte_of_string "notes") |} ""
              (list_byte_of_string "notes") eq_refl)
    as [r [Hr [Hm _]]].
  exists r. split; assumption.
Defined.

(** X12. The [recommendations] of a response have two entries more than its
    [gaps]: from two, when no cluster is missing, to eight. *)
Theorem recommendations_between_two_and_eight
    how decode db now_stored now_replied file doc_title content_bytes :
  read file = Returns content_bytes ->
  exists r,
    upload_and_analyze how decode db now_stored now_replied file doc_title
      = Response r /\
    List.length (r_recommendations r) = (List.length (r_gaps r) + 2)%nat /\
    (2 <= List.length (r_recommendations r) <= 8)%nat.
Proof.
  intros Hread. eexists.
  split; [exact (upload_response _ _ _ _ _ _ _ _ Hread)|].
  cbn [r_recommendations r_gaps]. rewrite List.length_app.
  pose proof (gaps_at_most_six how (decode content_bytes)) as H6.
  change (List.length encouragement) with 2%nat. lia.
Qed.

Lemma recommendations_between_two_and_eight_witness :
  exists r,
    upload_and_analyze PyFloat.Plain decode_wellformed None "" "2024-01-01T00:00:00"
      (text_upload "policy.txt" "We encrypt data") "" = Response r /\
    (2 <= List.length (r_recommendations r) <= 8)%nat.
Proof.
  destruct (recommendations_between_two_and_eight PyFloat.Plain decode_wellformed
              None "" "2024-01-01T00:00:00"
              (text_upload "policy.txt" "We encrypt data") ""
              (list_byte_of_string "We encrypt data") eq_refl)
    as [r [Hr [_ Hb]]].
  exists r. split; assumption.
Defined.

(** * Properties of the listing *)

Module ListingFacts.

Section Normalize.
Variable str : value -> string.

(** What [normalize] gives on a dictionary. *)
Lemma normalize_dict (fields : list (string * value)) :
  normalize str (VDict fields) =
  match
    (if truthy (PyDict.get fields "uploaded_at" VNone)
     then match PyDict.get fields "uploaded_at" VNone with
          | VDatetime iso => Returns (Some (iso ++ "Z"))
          | _ => Raises
          end
     else Returns None),
    PyDict.get fields "analysis" (VDict [])
  with
  | Returns uploaded_at, VDict ad =>
      Returns {| i_id := str (PyDict.get fields "_id" VNone);
                 i_title := PyDict.get fields "title" VNone;
                 i_filename := PyDict.get fields "filename" VNone;
                 i_size := PyDict.get fields "size" VNone;
                 i_uploaded_at := uploaded_at;
                 i_coverage_score := PyDict.get ad "coverage_score" VNone |}
  | _, _ => Raises
  end.
Proof.
  unfold normalize, get_method, bind, isoformat.
  destruct (truthy (PyDict.get fields "uploaded_at" VNone));
    destruct (PyDict.get fields "uploaded_at" VNone);
    destruct (PyDict.get fields "analysis" (VDict [])); reflexivity.
Qed.

(** The documents the listing can render are the renderable ones. *)
Lemma normalize_returns_iff (d : value) :
  (exists it, normalize str d = Returns it) <-> renderable d.
Proof.
  destruct d as [| | | | | | | |fields];
    try (split; [intros [it H]; discriminate | intros []]).
  rewrite normalize_dict. unfold renderable. split.
  - intros [it H].
    destruct (truthy (PyDict.get fields "uploaded_at" VNone)) eqn:Ht;
      destruct (PyDict.get fields "uploaded_at" VNone) eqn:Hu;
      destruct (PyDict.get fields "analysis" (VDict [])) eqn:Ha;
      try discriminate; split; try discriminate; eauto.
  - intros [Hu [ad Ha]]. rewrite Ha.
    destruct (truthy (PyDict.get fields "uploaded_at" VNone)) eqn:Ht.
    + destruct (Hu eq_refl) as [iso Hiso]. rewrite Hiso. eauto.
    + eauto.
Qed.

Lemma normalize_raises_iff (d : value) :
  normalize str d = Raises <-> ~ renderable d.
Proof.
  rewrite <- normalize_returns_iff. destruct (normalize str d) as [it|].
  - split; [discriminate | intros H; exfalso; apply H; now exists it].
  - split; [intros _ [it H]; discriminate | reflexivity].
Qed.

Lemma normalize_all_returns (docs : list value) : forall result,
  Forall renderable docs ->
  exists items,
    normalize_all str docs result = Returns (result ++ items)%list /\
    Forall2 (fun d it => normalize str d = Returns it) docs items.
Proof.
  induction docs as [|d docs IH]; intros result Hall.
  - exists []. split; [simpl; now rewrite app_nil_r | constructor].
  - inversion Hall as [|? ? Hd Hdocs]; subst.
    apply normalize_returns_iff in Hd as [it Hit].
    destruct (IH (result ++ [it])%list Hdocs) as [items [Hrun Hitems]].
    exists (it :: items). split.
    + cbn [normalize_all]. rewrite Hit. cbn [bind]. rewrite Hrun.
      now rewrite <- List.app_assoc.
    + now constructor.
Qed.

Lemma normalize_all_raises (docs : list value) : forall result,
  Exists (fun d => ~ renderable d) docs ->
  normalize_all str docs result = Raises.
Proof.
  induction docs as [|d docs IH]; intros result Hex; [inversion Hex|].
  cbn [normalize_all]. destruct (normalize str d) as [it|] eqn:Hd; [|reflexivity].
  cbn [bind]. apply IH. inversion Hex as [? ? Hbad | ? ? Hrest]; subst.
  - exfalso. apply Hbad. apply normalize_returns_iff. now exists it.
  - exact Hrest.
Qed.

End Normalize.

End ListingFacts.

Import ListingFacts.

(** X13. The listing can render a document exactly when it is a dictionary
    whose "uploaded_at" is falsy or a datetime and whose "analysis", when
    there is one, is a dictionary; an "analysis" of None, for one, cannot be
    rendered. *)
Theorem renderable_documents (str : value -> string) (d : value) :
  ((exists it, normalize str d = Returns it) <-> renderable d) /\
  (normalize str d = Raises <-> ~ renderable d) /\
  normalize str (VDict [("analysis", VNone)]) = Raises.
Proof.
  split; [exact (normalize_returns_iff str d)|].
  split; [exact (normalize_raises_iff str d) | reflexivity].
Qed.

(** X14. The listing is all or nothing: without the [database] module, when
    the query raises, or when one document cannot be rendered, ["items"] is
    empty, whatever the other documents are. *)
Theorem listing_all_or_nothing (str : value -> string) (db : option documents)
    (limit : Z) :
  (db = None \/
   exists get_documents, db = Some get_documents /\
     (get_documents "analysis" [] limit = Raises \/
      exists docs, get_documents "analysis" [] limit = Returns docs /\
                   Exists (fun d => ~ renderable d) docs)) ->
  list_analyses str db limit = [].
Proof.
  intros [-> | [g [-> [Hq | [docs [Hq Hbad]]]]]]; unfold list_analyses.
  - reflexivity.
  - now rewrite Hq.
  - rewrite Hq. cbn [bind]. now rewrite (normalize_all_raises str docs [] Hbad).
Qed.

Lemma listing_all_or_nothing_witness :
  list_analyses str_of_id
    (Some (fun _ _ _ =>
             Returns [ VDict [("_id", VObjectId "65a1"); ("title", VStr "Policy")];
                       VDict [("_id", VObjectId "65a2"); ("analysis", VNone)] ]))
    10 = [].
Proof.
  apply listing_all_or_nothing. right. eexists. split; [reflexivity|].
  right. eexists. split; [reflexivity|].
  apply Exists_cons_tl. apply Exists_cons_hd.
  apply (normalize_raises_iff str_of_id). reflexivity.
Defined.

(** X15. When every document the store returns can be rendered, ["items"]
    has one entry for each, in the order of the store: the handler itself
    drops none and cuts nothing, whatever [limit] is. *)
Theorem listing_keeps_every_document (str : value -> string)
    (get_documents : documents) (limit : Z) (docs : list value) :
  get_documents "analysis" [] limit = Returns docs ->
  Forall renderable docs ->
  List.length (list_analyses str (Some get_documents) limit) = List.length docs /\
  Forall2 (fun d it => normalize str d = Returns it)
    docs (list_analyses str (Some get_documents) limit).
Proof.
  intros Hq Hall. unfold list_analyses. rewrite Hq. cbn [bind].
  destruct (normalize_all_returns str docs [] Hall) as [items [Hrun Hitems]].
  rewrite Hrun. cbn [app]. split; [|exact Hitems].
  symmetry. exact (Forall2_length Hitems).
Qed.

Lemma listing_keeps_every_document_witness :
  List.length
    (list_analyses str_of_id
       (Some (fun _ _ _ =>
                Returns [ VDict [("_id", VObjectId "65a1"); ("title", VStr "Policy")];
                          VDict [("_id", VObjectId "65a2")] ]))
       1) = 2%nat.
Proof.
  assert (Hall : Forall renderable
                   [ VDict [("_id", VObjectId "65a1"); ("title", VStr "Policy")];
                     VDict [("_id", VObjectId "65a2")] ]).
  { repeat constructor; simpl; try discriminate; eauto. }
  exact (proj1 (listing_keeps_every_document str_of_id
                  (fun _ _ _ =>
                     Returns [ VDict [("_id", VObjectId "65a1"); ("title", VStr "Policy")];
                               VDict [("_id", VObjectId "65a2")] ])
                  1 _ eq_refl Hall)).
Defined.

(** X16. What the upload stores, the listing shows: for a stored document
    that has kept the fields of the upload's record, the entry has its
    title, file name, size and score, and the time of storing followed by
    "Z". *)
Theorem listing_shows_the_stored_upload (str : value -> string)
    how decode now_stored file doc_title content_bytes
    (fields : list (string * value)) :
  keeps fields
    (payload_of now_stored file doc_title content_bytes
       (analyze_text how (decode content_bytes))) ->
  normalize str (VDict fields) =
  Returns
    {| i_id := str (PyDict.get fields "_id" VNone);
       i_title := VStr (str_or doc_title (filename file));
       i_filename := VStr (filename file);
       i_size := VInt (Z.of_nat (List.length content_bytes));
       i_uploaded_at := Some (now_stored ++ "Z");
       i_coverage_score :=
         VFloat (coverage_score (analyze_text how (decode content_bytes))) |}.
Proof.
  intros Hkeeps. rewrite normalize_dict.
  rewrite (Hkeeps "uploaded_at" VNone), (Hkeeps "analysis" (VDict [])),
    (Hkeeps "title" VNone), (Hkeeps "filename" VNone), (Hkeeps "size" VNone)
    by (simpl; auto 10).
  reflexivity.
Qed.

Lemma listing_shows_the_stored_upload_witness :
  normalize str_of_id
    (VDict (("_id", VObjectId "65a1") ::
            payload_dict
              (payload_of "2024-01-01T00:00:00"
                 (text_upload "policy.txt" "Our privacy policy") "Policy"
                 (list_byte_of_string "Our privacy policy")
                 (analyze_text PyFloat.Plain "Our privacy policy")))) =
  Returns
    {| i_id := "65a1";
       i_title := VStr "Policy";
       i_filename := VStr "policy.txt";
       i_size := VInt 18;
       i_uploaded_at := Some "2024-01-01T00:00:00Z";
       i_coverage_score :=
         VFloat (coverage_score (analyze_text PyFloat.Plain "Our privacy policy")) |}.
Proof.
  apply (listing_shows_the_stored_upload str_of_id PyFloat.Plain decode_wellformed
           "2024-01-01T00:00:00" (text_upload "policy.txt" "Our privacy policy")
           "Policy" (list_byte_of_string "Our privacy policy")).
  intros k default Hk. simpl in Hk.
  repeat (destruct Hk as [<- | Hk]; [reflexivity|]). contradiction.
Defined.

(** * Properties of the diagnostic *)

Module DiagnosticFacts.

Lemma take_chars_count (s : string) : forall n,
  (count_chars (take_chars n s) <= n)%nat.
Proof.
  induction s as [|c s IH]; intros n; simpl; [lia|].
  destruct (continues c) eqn:Hc; simpl.
  - rewrite Hc. apply IH.
  - destruct n as [|n]; simpl; [lia|]. rewrite Hc. specialize (IH n). lia.
Qed.

Lemma take_chars_prefix (s : string) : forall n,
  exists rest, s = take_chars n s ++ rest.
Proof.
  induction s as [|c s IH]; intros n; simpl; [now exists ""|].
  destruct (continues c).
  - destruct (IH n) as [rest Hrest]. exists rest. simpl. now rewrite <- Hrest.
  - destruct n as [|n].
    + now exists (String c s).
    + destruct (IH n) as [rest Hrest]. exists rest. simpl. now rewrite <- Hrest.
Qed.

Lemma take_chars_short (s : string) : forall n,
  (count_chars s <= n)%nat -> take_chars n s = s.
Proof.
  induction s as [|c s IH]; intros n; simpl; [reflexivity|].
  destruct (continues c).
  - intros H. f_equal. now apply IH.
  - destruct n as [|n]; [lia|]. intros H. f_equal. apply IH. lia.
Qed.

Lemma take_chars_min (s : string) : forall n,
  count_chars (take_chars n s) = Nat.min n (count_chars s).
Proof.
  induction s as [|c s IH]; intros n; simpl; [now rewrite Nat.min_0_r|].
  destruct (continues c) eqn:Hc; simpl.
  - rewrite Hc. apply IH.
  - destruct n as [|n]; simpl; [reflexivity|]. rewrite Hc. now rewrite IH.
Qed.

(** What the cut leaves out begins a character. *)
Lemma take_chars_rest (s : string) : forall n,
  exists rest,
    s = take_chars n s ++ rest /\
    match rest with
    | EmptyString => True
    | String c _ => continues c = false
    end.
Proof.
  induction s as [|c s IH]; intros n; simpl; [now exists ""|].
  destruct (continues c) eqn:Hc.
  - destruct (IH n) as [rest [Hrest Hc']]. exists rest. simpl.
    now rewrite <- Hrest.
  - destruct n as [|n].
    + exists (String c s). now split.
    + destruct (IH n) as [rest [Hrest Hc']]. exists rest. simpl.
      now rewrite <- Hrest.
Qed.

Lemma firstn_at_most {A} (n : nat) (l : list A) :
  (List.length (firstn n l) <= n)%nat.
Proof. rewrite length_firstn. lia. Qed.

End DiagnosticFacts.

Import DiagnosticFacts.

(** X17. Whatever the database module is or does, the "database_url" and
    "database_name" of the diagnosis are never null and tell of the
    environment only: whether DATABASE_URL and DATABASE_NAME are set to a text
    that is not empty.  What the probe wrote in them is overwritten. *)
Theorem diagnosis_reports_the_environment
    (import_db import_db' : attempt (option Database))
    (getenv : string -> option string) :
  database_url (test_database import_db getenv) =
    Some (match getenv "DATABASE_URL" with
          | Some (String _ _) => is_set
          | _ => not_set
          end) /\
  database_name (test_database import_db getenv) =
    Some (match getenv "DATABASE_NAME" with
          | Some (String _ _) => is_set
          | _ => not_set
          end) /\
  database_url (test_database import_db getenv) =
    database_url (test_database import_db' getenv) /\
  database_name (test_database import_db getenv) =
    database_name (test_database import_db' getenv) /\
  backend (test_database import_db getenv) = running.
Proof.
  unfold test_database, probe.
  destruct import_db as [[db|]|[m|m]]; destruct import_db' as [[db'|]|[m'|m']];
    repeat match goal with
           | |- context [db_name ?d] => destruct (db_name d) as [?|[?|?]]
           | |- context [list_collection_names ?d] =>
               destruct (list_collection_names d) as [?|[?|?]]
           end;
    repeat split; reflexivity.
Qed.

(** X18. The diagnosis lists at most ten collections, the first ten the
    database names, and lists some only when it reports the database as
    connected and working. *)
Theorem diagnosis_lists_at_most_ten_collections
    (import_db : attempt (option Database)) (getenv : string -> option string) :
  (List.length (collections (test_database import_db getenv)) <= 10)%nat /\
  (collections (test_database import_db getenv) <> [] ->
   database_status (test_database import_db getenv) = connected_and_working) /\
  (forall db name names,
     import_db = Done (Some db) -> db_name db = Done name ->
     list_collection_names db = Done names ->
     collections (test_database import_db getenv) = firstn 10 names).
Proof.
  unfold test_database, probe.
  destruct import_db as [[db|]|[m|m]];
    try (cbn; repeat split; try lia; try congruence; discriminate).
  destruct (db_name db) as [name|[m|m]] eqn:Hn;
    try (cbn; repeat split; try lia; try congruence; discriminate).
  destruct (list_collection_names db) as [names|e] eqn:Hl.
  - cbn [collections database_status set_database set_database_url
         set_database_name set_connection_status set_collections].
    split; [apply firstn_at_most|]. split; [reflexivity|].
    intros db' name' names' Hdb Hn' Hl'. injection Hdb as <-.
    rewrite Hl in Hl'. now injection Hl' as <-.
  - cbn. split; [lia|]. split; [congruence|].
    intros db' name' names' Hdb Hn' Hl'. injection Hdb as <-.
    rewrite Hl in Hl'. discriminate.
Qed.

(** X19. The diagnosis says "Connected" exactly when the module gives a
    database and reading its name does not raise, and reports the database
    as connected and working exactly when, besides, it can list its
    collections. *)
Theorem diagnosis_connected_iff
    (import_db : attempt (option Database)) (getenv : string -> option string) :
  (connection_status (test_database import_db getenv) = "Connected" <->
   exists db name, import_db = Done (Some db) /\ db_name db = Done name) /\
  (connection_status (test_database import_db getenv) = "Connected" \/
   connection_status (test_database import_db getenv) = "Not Connected") /\
  (database_status (test_database import_db getenv) = connected_and_working <->
   exists db name names,
     import_db = Done (Some db) /\ db_name db = Done name /\
     list_collection_names db = Done names).
Proof.
  unfold test_database, probe.
  destruct import_db as [[db|]|[m|m]].
  - destruct (db_name db) as [name|[m|m]] eqn:Hn.
    + destruct (list_collection_names db) as [names|e] eqn:Hl; cbn.
      * split; [split; [intros _; now exists db, name | reflexivity]|].
        split; [now left|].
        split; [intros _; now exists db, name, names | reflexivity].
      * split; [split; [intros _; now exists db, name | reflexivity]|].
        split; [now left|].
        split; [discriminate|].
        intros [db' [name' [names' [Hdb [_ Hl']]]]]. injection Hdb as <-.
        rewrite Hl in Hl'. discriminate.
    + cbn. split; [split; [discriminate|]|].
      * intros [db' [name' [Hdb Hn']]]. injection Hdb as <-.
        rewrite Hn in Hn'. discriminate.
      * split; [now right|]. split; [discriminate|].
        intros [db' [name' [names' [Hdb [Hn' _]]]]]. injection Hdb as <-.
        rewrite Hn in Hn'. discriminate.
    + cbn. split; [split; [discriminate|]|].
      * intros [db' [name' [Hdb Hn']]]. injection Hdb as <-.
        rewrite Hn in Hn'. discriminate.
      * split; [now right|]. split; [discriminate|].
        intros [db' [name' [names' [Hdb [Hn' _]]]]]. injection Hdb as <-.
        rewrite Hn in Hn'. discriminate.
  - cbn. split; [split; [discriminate | intros [db [name [Hdb _]]]; discriminate]|].
    split; [now right|].
    split; [discriminate | intros [db [name [names [Hdb _]]]]; discriminate].
  - cbn. split; [split; [discriminate | intros [db [name [Hdb _]]]; discriminate]|].
    split; [now right|].
    split; [discriminate | intros [db [name [names [Hdb _]]]]; discriminate].
  - cbn. split; [split; [discriminate | intros [db [name [Hdb _]]]; discriminate]|].
    split; [now right|].
    split; [discriminate | intros [db [name [names [Hdb _]]]]; discriminate].
Qed.

(** X20. An error shown in the diagnosis is cut to its first fifty
    characters: when the import raises an exception that is not an
    ImportError, and when listing the collections raises, the status ends
    with [str(e)[:50]].  That is the prefix of the message with fifty
    characters, or with all of them when the message has fewer, each with
    all its bytes: what is left begins a character. *)
Theorem diagnosis_cuts_errors_at_fifty
    (db : Database) (name : option string) (e : exn) (m : string)
    (getenv : string -> option string) :
  database_status (test_database (Raised (OtherError m)) getenv) =
    error_prefix ++ take_chars 50 m /\
  (db_name db = Done name -> list_collection_names db = Raised e ->
   database_status (test_database (Done (Some db)) getenv) =
     connected_but_error ++ take_chars 50 (message e)) /\
  (count_chars (take_chars 50 m) <= 50)%nat /\
  (exists rest, m = take_chars 50 m ++ rest) /\
  ((count_chars m <= 50)%nat -> take_chars 50 m = m) /\
  count_chars (take_chars 50 m) = Nat.min 50 (count_chars m) /\
  (exists rest,
     m = take_chars 50 m ++ rest /\
     match rest with
     | EmptyString => True
     | String c _ => continues c = false
     end).
Proof.
  split; [reflexivity|]. split.
  - intros Hn Hl. unfold test_database, probe. rewrite Hn, Hl. reflexivity.
  - split; [apply take_chars_count|].
    split; [apply take_chars_prefix|].
    split; [apply take_chars_short|].
    split; [apply take_chars_min | apply take_chars_rest].
Qed.

(** * Lower-casing beyond ASCII *)

(** X21. The scorer reads the two characters beyond ASCII that lower-case
    to an ASCII letter.  The Kelvin sign counts as the letter k wherever it
    stands: a text has the report of the text with k in its place, so that
    ris with a Kelvin sign is a hit of "risk".  Capital I with dot above
    counts as an i that ends a marker, as in PI with it for "pii", and not
    as an i within one, for the dot that stays behind it: PR, it and VACY
    hold no marker. *)
Theorem kelvin_sign_counts_as_k (how : PyFloat.summation) (s t : string) :
  analyze_text how (s ++ kelvin_sign ++ t) = analyze_text how (s ++ "k" ++ t) /\
  fraction (analyze_text how ("ris" ++ kelvin_sign)) "governance" = PyFloat.dec2 17 /\
  coverage_score (analyze_text how ("ris" ++ kelvin_sign)) = PyFloat.dec2 3 /\
  fraction (analyze_text how ("PI" ++ dotted_capital_i)) "privacy" = PyFloat.dec2 17 /\
  analyze_text how ("PR" ++ dotted_capital_i ++ "VACY") = analyze_text how "".
Proof.
  split.
  - unfold analyze_text.
    rewrite (analyze_locals_run how (s ++ kelvin_sign ++ t) (s ++ "k" ++ t));
      [reflexivity|].
    rewrite !lowered_lower. f_equal.
    unfold kelvin_sign. cbn [String.append].
    rewrite !PyStrFacts.lower_app_boundary by reflexivity.
    f_equal. rewrite (PyStrFacts.lower_cons "k" t).
    destruct t as [|d [|e t3]]; reflexivity.
  - destruct how; vm_compute; repeat split; reflexivity.
Qed.
